(** * Debug relay (Modules/Debug/Debug.cpp): buffered diagnostic text

    A shallow embedding of the text relay of [Debug.cpp], in the
    configuration where both [DEBUG_PRINTF_ENABLED] and [USE_FREERTOS] are
    defined, and theorems about the buffer, the splitting of long messages,
    the composite entry points and the error reporter.

    Conventions of the model.
    - A [const char *] argument is the list of bytes in front of its
      terminating NUL; [strlen] is then the length of that list.
    - Pointers ([com_], [mutex_], ...) are integers, 0 being the null pointer.
    - The collaborators (LSPC transport, FreeRTOS) are not part of the file:
      their calls are recorded, in the order they happen, in a trace.
    - [MAX_DEBUG_TEXT_LENGTH] is defined in Debug.h; it is the parameter
      [capacity] of every definition that uses it.
    - [currentBufferLocation_] is declared in Debug.h; it is an integer here.
      The invariant proved below keeps it between 0 and [capacity], so no
      type that holds [capacity] would wrap around.
    - Every loop runs on fuel, a bound on the number of its iterations; a
      computation whose fuel is used up is still running. *)

From Stdlib Require Import ZArith Ascii String Bool Lia.
From Stdlib Require Import List.
Import ListNotations.
Local Open Scope Z_scope.

(** ** Machine integers *)

(** Conversion to [uint16_t]. *)
Definition wrap16 (z : Z) : Z := z mod 65536.

(** [strlen] of a C string given by its bytes. *)
Definition strlen (msg : list ascii) : Z := Z.of_nat (length msg).

(** A string literal of the source, as bytes. *)
Definition lit (s : String.string) : list ascii := String.list_ascii_of_string s.
Arguments lit s%_string.

(** The literal of one line feed. *)
Definition newline : list ascii := ["010"%char].

(** The NUL byte. *)
Definition zero : ascii := Ascii.zero.

(** ** Data model *)

(** The fields of a [Debug] object. *)
Record Debug := mkDebug {
  com_ : Z;
  mutex_ : Z;
  _TaskHandle : Z;
  debugPulsePin_ : Z;
  messageBuffer_ : list ascii;
  currentBufferLocation_ : Z
}.

(** Calls into the collaborators, as they are observed from outside. *)
Inductive Event :=
| EvTransmit (com : Z) (data : list ascii)   (* LSPC::TransmitAsync(Debug, data, |data|) *)
| EvTake (mutex : Z)                          (* xSemaphoreTake *)
| EvGive (mutex : Z)                          (* xSemaphoreGive *)
| EvSemaphoreCreate (mutex : Z)               (* xSemaphoreCreateBinary, with its result *)
| EvQueueRegister (mutex : Z)                 (* vQueueAddToRegistry *)
| EvTaskCreate                                (* xTaskCreate(PackageGeneratorThread, ..., &debugHandle, ...) *)
| EvDelay (ticks : Z)                         (* osDelay *)
| EvBkpt                                      (* __asm__("BKPT") *)
| EvPinHigh (pin : Z)                         (* IO::High *)
| EvPinLow (pin : Z)                          (* IO::Low *)
| EvPinToggle (pin : Z)                       (* IO::Toggle *)
| EvDiagnostic (msg : list ascii)                (* a report that returns *).

(** The statics of the class, the state of the transport, and the trace. *)
Record World := mkWorld {
  handleCreated : bool;
  debugHandle : Debug;
  Connected : Z -> bool;        (* LSPC::Connected() of the object at an address *)
  trace : list Event
}.

Definition set_debugHandle (d : Debug) (w : World) : World :=
  mkWorld (handleCreated w) d (Connected w) (trace w).

Definition set_handleCreated (b : bool) (w : World) : World :=
  mkWorld b (debugHandle w) (Connected w) (trace w).

Definition set_com (c : Z) (d : Debug) : Debug :=
  mkDebug c (mutex_ d) (_TaskHandle d) (debugPulsePin_ d)
          (messageBuffer_ d) (currentBufferLocation_ d).

Definition set_mutex (m : Z) (d : Debug) : Debug :=
  mkDebug (com_ d) m (_TaskHandle d) (debugPulsePin_ d)
          (messageBuffer_ d) (currentBufferLocation_ d).

Definition set_TaskHandle (t : Z) (d : Debug) : Debug :=
  mkDebug (com_ d) (mutex_ d) t (debugPulsePin_ d)
          (messageBuffer_ d) (currentBufferLocation_ d).

Definition set_debugPulsePin (p : Z) (d : Debug) : Debug :=
  mkDebug (com_ d) (mutex_ d) (_TaskHandle d) p
          (messageBuffer_ d) (currentBufferLocation_ d).

Definition set_messageBuffer (b : list ascii) (d : Debug) : Debug :=
  mkDebug (com_ d) (mutex_ d) (_TaskHandle d) (debugPulsePin_ d)
          b (currentBufferLocation_ d).

Definition set_currentBufferLocation (n : Z) (d : Debug) : Debug :=
  mkDebug (com_ d) (mutex_ d) (_TaskHandle d) (debugPulsePin_ d)
          (messageBuffer_ d) n.

(** ** Computations

    A call either returns, or is still running when the fuel of its loops is
    used up, or stops at an access outside of an array or at a call through a
    null pointer. *)
Inductive Res (A : Type) :=
| Ret (a : A) (w : World)
| OutOfFuel (w : World)
| Fault (w : World).
Arguments Ret {A} a w.
Arguments OutOfFuel {A} w.
Arguments Fault {A} w.

Definition M (A : Type) : Type := World -> Res A.

Definition ret {A} (a : A) : M A := fun w => Ret a w.

Definition bind {A B} (m : M A) (k : A -> M B) : M B :=
  fun w => match m w with
           | Ret a w' => k a w'
           | OutOfFuel w' => OutOfFuel w'
           | Fault w' => Fault w'
           end.

Declare Scope debug_scope.
Delimit Scope debug_scope with debug.
Notation "x <- m ;; k" := (bind m (fun x => k))
  (at level 61, m at next level, right associativity) : debug_scope.
Notation "m ;; k" := (bind m (fun _ => k))
  (at level 61, right associativity) : debug_scope.
Local Open Scope debug_scope.

Definition get : M World := fun w => Ret w w.
Definition this : M Debug := fun w => Ret (debugHandle w) w.
Definition modify (f : Debug -> Debug) : M unit :=
  fun w => Ret tt (set_debugHandle (f (debugHandle w)) w).
Definition emit (e : Event) : M unit :=
  fun w => Ret tt (mkWorld (handleCreated w) (debugHandle w) (Connected w)
                           (trace w ++ [e])).
Definition fault {A} : M A := fun w => Fault w.

(** [while (cond) body] over the local variables [S] of the loop; [fuel] bounds
    the number of iterations. *)
Fixpoint while_ {S : Type} (fuel : nat) (cond : S -> bool) (body : S -> M S)
         (s : S) : M S :=
  if cond s then
    match fuel with
    | O => fun w => OutOfFuel w
    | Datatypes.S n => s' <- body s ;; while_ n cond body s'
    end
  else ret s.

(** ** Collaborators *)

(** [((LSPC * )com)->TransmitAsync(Debug, ptr, len)]: [mem] is what lies at
    [ptr]; the boolean result is dropped by every caller. A call through a
    null pointer stops the computation. *)
Definition TransmitAsync (com : Z) (mem : list ascii) (len : Z) : M unit :=
  if com =? 0 then fault
  else if (len <? 0) || (Z.of_nat (length mem) <? len) then fault
  else emit (EvTransmit com (firstn (Z.to_nat len) mem)).

(** [memcpy(&dst[off], src, n)] on an array [dst]. *)
Definition memcpy (dst : list ascii) (off : Z) (src : list ascii) (n : Z)
  : option (list ascii) :=
  if (off <? 0) || (n <? 0) || (Z.of_nat (length dst) <? off + n)
     || (Z.of_nat (length src) <? n)
  then None
  else Some (firstn (Z.to_nat off) dst ++ firstn (Z.to_nat n) src
             ++ skipn (Z.to_nat (off + n)) dst).

Definition xSemaphoreTake : M unit := d <- this ;; emit (EvTake (mutex_ d)).
Definition xSemaphoreGive : M unit := d <- this ;; emit (EvGive (mutex_ d)).
Definition osDelay (ticks : Z) : M unit := emit (EvDelay ticks).

Section Relay.

(** [MAX_DEBUG_TEXT_LENGTH]. *)
Variable capacity : Z.

(** Bound on the iterations of every loop. *)
Variable fuel : nat.

(** ** Debug::Message(const char * msg) *)

(** The body of the splitting loop; the locals are [msgPtr], as an offset
    into [msg], and [stringLength]. *)
Definition Message_chunk (com : Z) (msg : list ascii) (st : Z * Z) : M (Z * Z) :=
  let '(msgPtr, stringLength) := st in
  let sendLength := stringLength in
  let sendLength := if sendLength >? capacity then wrap16 capacity
                    else sendLength in
  TransmitAsync com (skipn (Z.to_nat msgPtr) msg) sendLength ;;
  ret (msgPtr + sendLength, wrap16 (stringLength - sendLength)).

(** The test of line 107: the message does not fit in one package. *)
Definition Message_too_long (msg : list ascii) : bool :=
  wrap16 (strlen msg) >? capacity.

Definition Message (msg : list ascii) : M unit :=
  d <- this ;;
  if com_ d =? 0 then ret tt else
  w <- get ;;
  if negb (Connected w (com_ d)) then ret tt else
  xSemaphoreTake ;;
  let stringLength := wrap16 (strlen msg) in
  (if Message_too_long msg then
     d <- this ;;
     TransmitAsync (com_ d) (messageBuffer_ d) (currentBufferLocation_ d) ;;
     modify (set_currentBufferLocation 0) ;;
     _ <- while_ fuel (fun st => snd st >? 0) (Message_chunk (com_ d) msg)
                 (0, stringLength) ;;
     ret tt
   else
     d <- this ;;
     (if stringLength >? capacity - currentBufferLocation_ d then
        TransmitAsync (com_ d) (messageBuffer_ d) (currentBufferLocation_ d) ;;
        modify (set_currentBufferLocation 0)
      else ret tt) ;;
     d <- this ;;
     match memcpy (messageBuffer_ d) (currentBufferLocation_ d) msg stringLength with
     | None => fault
     | Some b =>
         modify (set_messageBuffer b) ;;
         modify (fun d => set_currentBufferLocation
                            (currentBufferLocation_ d + stringLength) d)
     end) ;;
  xSemaphoreGive.

(** ** The composite entry points *)

(** [std::string::c_str()], and more generally the C string that starts at
    the first byte of a block of memory: the bytes in front of the first NUL. *)
Fixpoint c_str (s : list ascii) : list ascii :=
  match s with
  | [] => []
  | c :: s' => if Ascii.eqb c zero then [] else c :: c_str s'
  end.

(** [Message(std::string msg)] *)
Definition Message_string (msg : list ascii) : M unit :=
  Message (c_str msg) ;;
  Message newline.

(** [Message(const char * functionName, const char * msg)] *)
Definition Message_fn (functionName msg : list ascii) : M unit :=
  Message (lit "[") ;;
  Message functionName ;;
  Message (lit "] ") ;;
  Message msg ;;
  Message newline.

(** [Message(const char * functionName, std::string msg)] *)
Definition Message_fn_string (functionName msg : list ascii) : M unit :=
  Message (lit "[") ;;
  Message functionName ;;
  Message (lit "] ") ;;
  Message (c_str msg) ;;
  Message newline.

(** [Message(const char * type, const char * functionName, const char * msg)] *)
Definition Message_type (type functionName msg : list ascii) : M unit :=
  Message type ;;
  Message (lit "[") ;;
  Message functionName ;;
  Message (lit "] ") ;;
  Message msg ;;
  Message newline.

(** [Message(std::string type, const char * functionName, std::string msg)] *)
Definition Message_type_string (type functionName msg : list ascii) : M unit :=
  Message (lit "[") ;;
  Message functionName ;;
  Message (lit "] ") ;;
  Message (c_str msg) ;;
  Message newline.

(** [Debug::print] *)
Definition print (msg : list ascii) : M unit := Message msg.

(** ** Debug::printf

    [rendered] is the full expansion of [msgFmt] with its arguments, which is
    the work of the C library; [block] is what [pvPortMalloc] returns: nothing
    when it fails, else the block with the bytes that happen to be in it. *)

(** [vsnprintf(strBuf, n, msgFmt, args)]: at most [n - 1] bytes of the
    expansion, then a NUL; nothing is written when [n] is 0. *)
Definition vsnprintf (strBuf : list ascii) (n : Z) (rendered : list ascii)
  : list ascii :=
  if n <=? 0 then strBuf
  else
    let out := firstn (Z.to_nat (n - 1)) rendered ++ [zero] in
    out ++ skipn (length out) strBuf.

(** The C string in [strBuf] after the call of [vsnprintf]. *)
Definition printf_text (strBuf rendered : list ascii) : list ascii :=
  c_str (vsnprintf strBuf capacity rendered).

Definition printf (rendered : list ascii) (block : option (list ascii)) : M unit :=
  d <- this ;;
  if com_ d =? 0 then ret tt else
  w <- get ;;
  if negb (Connected w (com_ d)) then ret tt else
  match block with
  | None => ret tt
  | Some strBuf => Message (printf_text strBuf rendered)
  end.

(** ** Debug::Error *)
Definition Error (type functionName msg : list ascii) : M unit :=
  emit EvBkpt ;;
  _ <- while_ fuel (fun _ : unit => true)
         (fun _ => Message_type type functionName msg ;; osDelay 500) tt ;;
  ret tt.

(** [Error_Handler], exported to C. *)
Definition Error_Handler : M unit :=
  Error (lit "ERROR: ") (lit "Error_Handler") (lit "Global ").

(** [Debug_print], exported to C. *)
Definition Debug_print (msg : list ascii) : M unit := print msg.

(** ** The pin for timing marks *)

Definition SetDebugPin (pin : Z) : M unit :=
  d <- this ;;
  if negb (debugPulsePin_ d =? 0) then ret tt
  else modify (set_debugPulsePin pin).

Definition Pulse : M unit :=
  d <- this ;;
  if debugPulsePin_ d =? 0 then ret tt
  else
    emit (EvPinHigh (debugPulsePin_ d)) ;;
    osDelay 50 ;;
    emit (EvPinLow (debugPulsePin_ d)).

Definition Toggle : M unit :=
  d <- this ;;
  if debugPulsePin_ d =? 0 then ret tt
  else emit (EvPinToggle (debugPulsePin_ d)).

(** [Debug_Pulse], exported to C. *)
Definition Debug_Pulse : M unit := Pulse.

(** ** Debug::PackageGeneratorThread *)

(** One turn of the loop of the thread. *)
Definition PackageGeneratorThread_body : M unit :=
  osDelay 1 ;;
  xSemaphoreTake ;;
  d <- this ;;
  (if currentBufferLocation_ d >? 0 then
     TransmitAsync (com_ d) (messageBuffer_ d) (currentBufferLocation_ d) ;;
     modify (set_currentBufferLocation 0)
   else ret tt) ;;
  xSemaphoreGive.

Definition PackageGeneratorThread : M unit :=
  _ <- while_ fuel (fun _ : unit => true)
         (fun _ => PackageGeneratorThread_body) tt ;;
  ret tt.

(** ** Construction and binding

    The macro [ERROR] is defined in Debug.h; what it does with its message is
    the parameter [ERROR]. *)
Variable ERROR : list ascii -> M unit.

(** [Debug::Debug() : com_(0), debugPulsePin_(0)] on the storage [self];
    the result is the constructed object. *)
Definition Debug_ctor (self : Debug) : M Debug :=
  let self := set_debugPulsePin 0 (set_com 0 self) in
  w <- get ;;
  if handleCreated w then
    ERROR (lit "Debug object already created") ;;
    ret self
  else
    (fun w => Ret tt (set_handleCreated true w)) ;;
    ret self.

(** [memset(dst, 0, n)] *)
Definition memset0 (dst : list ascii) (n : Z) : option (list ascii) :=
  if (n <? 0) || (Z.of_nat (length dst) <? n) then None
  else Some (repeat zero (Z.to_nat n) ++ skipn (Z.to_nat n) dst).

(** [Debug::AssignDebugCOM(void * com)]; [sem] is the result of
    [xSemaphoreCreateBinary] in this call and [task] the handle that
    [xTaskCreate] stores. *)
Definition AssignDebugCOM (com sem task : Z) : M unit :=
  modify (set_com com) ;;
  if com =? 0 then
    ERROR (lit "LSPC object does not exist")
  else
    modify (set_currentBufferLocation 0) ;;
    d <- this ;;
    match memset0 (messageBuffer_ d) capacity with
    | None => fault
    | Some b =>
        modify (set_messageBuffer b) ;;
        emit (EvSemaphoreCreate sem) ;;
        modify (set_mutex sem) ;;
        if sem =? 0 then
          ERROR (lit "Could not create Debug mutex")
        else
          emit (EvQueueRegister sem) ;;
          xSemaphoreGive ;;
          emit EvTaskCreate ;;
          modify (set_TaskHandle task)
    end.

End Relay.

(** * Properties *)

(** ** Auxiliary definitions *)

(** A world in which a channel is bound and connected and the buffer, of
    [capacity] bytes, is empty. *)
Definition example_world (capacity : Z) : World :=
  mkWorld true
          (mkDebug 1 2 3 0 (repeat zero (Z.to_nat capacity)) 0)
          (fun _ => true) [].

(** The same, with no channel bound. *)
Definition unbound_world (capacity : Z) : World :=
  mkWorld true
          (mkDebug 0 0 0 0 (repeat zero (Z.to_nat capacity)) 0)
          (fun _ => true) [].

(** The world with more events at the end of its trace. *)
Definition add_trace (t : list Event) (w : World) : World :=
  mkWorld (handleCreated w) (debugHandle w) (Connected w) (trace w ++ t).

(** The payloads of the [TransmitAsync] calls of a trace, in order. *)
Fixpoint transmits (t : list Event) : list (list ascii) :=
  match t with
  | [] => []
  | EvTransmit _ data :: t' => data :: transmits t'
  | _ :: t' => transmits t'
  end.

(** The arguments of the [osDelay] calls of a trace, in order. *)
Fixpoint delays (t : list Event) : list Z :=
  match t with
  | [] => []
  | EvDelay n :: t' => n :: delays t'
  | _ :: t' => delays t'
  end.

(** The buffer is an array of [capacity] bytes and [currentBufferLocation_]
    is an index into it, or one past its end. *)
Definition wf (capacity : Z) (w : World) : Prop :=
  Z.of_nat (length (messageBuffer_ (debugHandle w))) = capacity /\
  0 <= currentBufferLocation_ (debugHandle w) <= capacity.

(** A channel is bound and reports that it is connected. *)
Definition online (w : World) : Prop :=
  com_ (debugHandle w) <> 0 /\ Connected w (com_ (debugHandle w)) = true.

(** The bytes that wait in the buffer: [messageBuffer_[0..currentBufferLocation_)]. *)
Definition buffered (w : World) : list ascii :=
  firstn (Z.to_nat (currentBufferLocation_ (debugHandle w)))
         (messageBuffer_ (debugHandle w)).

(** Everything the relay has accepted and not dropped: what was handed to
    the transport, then what waits in the buffer. *)
Definition stream (w : World) : list ascii :=
  concat (transmits (trace w)) ++ buffered w.

(** The part of a message that [Message] handles: [strlen] is stored in a
    [uint16_t], so these are the first [strlen msg mod 65536] bytes. *)
Definition sent (msg : list ascii) : list ascii :=
  firstn (Z.to_nat (wrap16 (strlen msg))) msg.

(** Calls of [Message], one after the other. *)
Fixpoint Message_seq (capacity : Z) (fuel : nat) (texts : list (list ascii))
  : M unit :=
  match texts with
  | [] => ret tt
  | text :: texts' => Message capacity fuel text ;; Message_seq capacity fuel texts'
  end.

(** The operations on the buffer that tasks perform under the lock. *)
Inductive Op :=
| OpMessage (msg : list ascii)      (* a call of [Message] by some task *)
| OpFlush.                          (* a turn of [PackageGeneratorThread] *)

Definition run_op (capacity : Z) (fuel : nat) (op : Op) : M unit :=
  match op with
  | OpMessage msg => Message capacity fuel msg
  | OpFlush => PackageGeneratorThread_body
  end.

Fixpoint run_ops (capacity : Z) (fuel : nat) (ops : list Op) : M unit :=
  match ops with
  | [] => ret tt
  | op :: ops' => run_op capacity fuel op ;; run_ops capacity fuel ops'
  end.

(** [n] times [body]. *)
Fixpoint times (n : nat) (body : M unit) : M unit :=
  match n with
  | O => ret tt
  | S k => body ;; times k body
  end.

(** The locks created and the tasks spawned in a trace. *)
Fixpoint locks_created (t : list Event) : nat :=
  match t with
  | [] => 0
  | EvSemaphoreCreate _ :: t' => S (locks_created t')
  | _ :: t' => locks_created t'
  end.

Fixpoint tasks_spawned (t : list Event) : nat :=
  match t with
  | [] => 0
  | EvTaskCreate :: t' => S (tasks_spawned t')
  | _ :: t' => tasks_spawned t'
  end.

(** A world with a bound and connected channel and "ab" waiting in the
    buffer. *)
Definition waiting_world (capacity : Z) : World :=
  mkWorld true
          (mkDebug 1 2 3 0 (lit "ab" ++ repeat zero (Z.to_nat (capacity - 2))) 2)
          (fun _ => true) [].

(** The same, with the channel bound and not connected. *)
Definition disconnected_world (capacity : Z) : World :=
  mkWorld true
          (mkDebug 1 2 3 0 (lit "ab" ++ repeat zero (Z.to_nat (capacity - 2))) 2)
          (fun _ => false) [].

(** The same, with the channel taken away while "ab" waits. *)
Definition orphaned_world (capacity : Z) : World :=
  mkWorld true
          (mkDebug 0 2 3 0 (lit "ab" ++ repeat zero (Z.to_nat (capacity - 2))) 2)
          (fun _ => true) [].

(** The thread can take its turn: there is a channel to call, or nothing
    to hand over. *)
Definition flush_safe (w : World) : Prop :=
  com_ (debugHandle w) <> 0 \/ currentBufferLocation_ (debugHandle w) = 0.

(** The world in which a computation stops, however it stops. *)
Definition world_of {A} (r : Res A) : World :=
  match r with
  | Ret _ w => w
  | OutOfFuel w => w
  | Fault w => w
  end.

(** What [Message] and the flushing thread never touch: the statics, the
    state of the transport, and every field but the buffer and its index. *)
Definition same_setup (w w' : World) : Prop :=
  handleCreated w' = handleCreated w /\
  Connected w' = Connected w /\
  com_ (debugHandle w') = com_ (debugHandle w) /\
  mutex_ (debugHandle w') = mutex_ (debugHandle w) /\
  _TaskHandle (debugHandle w') = _TaskHandle (debugHandle w) /\
  debugPulsePin_ (debugHandle w') = debugPulsePin_ (debugHandle w).

(** The texts of the [Message] calls among some operations, in order. *)
Fixpoint texts_of (ops : list Op) : list (list ascii) :=
  match ops with
  | [] => []
  | OpMessage msg :: ops' => msg :: texts_of ops'
  | OpFlush :: ops' => texts_of ops'
  end.

(** How often the lock was taken, less how often it was given, in a trace. *)
Fixpoint held (t : list Event) : Z :=
  match t with
  | [] => 0
  | EvTake _ :: t' => 1 + held t'
  | EvGive _ :: t' => held t' - 1
  | _ :: t' => held t'
  end.

(** The events on the pin in a trace, delays included. *)
Fixpoint pin_events (t : list Event) : list Event :=
  match t with
  | [] => []
  | EvPinHigh p :: t' => EvPinHigh p :: pin_events t'
  | EvPinLow p :: t' => EvPinLow p :: pin_events t'
  | EvPinToggle p :: t' => EvPinToggle p :: pin_events t'
  | EvDelay n :: t' => EvDelay n :: pin_events t'
  | _ :: t' => pin_events t'
  end.

(** Modelled from the spec: the macro [ERROR] is defined in Debug.h, which
    is not part of the sources at hand. For the report of a second
    construction the specification says that it "is reported as a non-fatal
    diagnostic and otherwise ignored" and that it is "not escalated to fatal":
    the report is one observable event, after which control returns. *)
Definition ERROR_diagnostic (msg : list ascii) : M unit :=
  emit (EvDiagnostic msg).

(** ** The trace *)

Lemma transmits_app t1 t2 : transmits (t1 ++ t2) = transmits t1 ++ transmits t2.
Proof.
  induction t1 as [|e t1 IH]; simpl; [reflexivity|].
  destruct e; simpl; rewrite IH; reflexivity.
Qed.

Lemma delays_app t1 t2 : delays (t1 ++ t2) = delays t1 ++ delays t2.
Proof.
  induction t1 as [|e t1 IH]; simpl; [reflexivity|].
  destruct e; simpl; rewrite IH; reflexivity.
Qed.

Lemma transmits_map_EvTransmit com cs : transmits (map (EvTransmit com) cs) = cs.
Proof. induction cs; simpl; congruence. Qed.

Lemma delays_map_EvTransmit com cs : delays (map (EvTransmit com) cs) = [].
Proof. induction cs; simpl; congruence. Qed.

Lemma add_trace_add_trace t1 t2 w :
  add_trace t2 (add_trace t1 w) = add_trace (t1 ++ t2) w.
Proof. unfold add_trace; simpl. rewrite app_assoc. reflexivity. Qed.

Lemma add_trace_nil w : add_trace [] w = w.
Proof. destruct w; unfold add_trace; simpl. rewrite app_nil_r. reflexivity. Qed.

Lemma emit_eq e w : emit e w = Ret tt (add_trace [e] w).
Proof. reflexivity. Qed.

(** ** Well-formed states and lengths *)

Lemma firstn_exact {A} (n : nat) (a b : list A) :
  length a = n -> firstn n (a ++ b) = a.
Proof.
  intros <-. rewrite firstn_app, Nat.sub_diag, firstn_all. simpl.
  apply app_nil_r.
Qed.

Lemma wrap16_small z : 0 <= z < 65536 -> wrap16 z = z.
Proof. intros H. unfold wrap16. apply Z.mod_small. exact H. Qed.

Lemma strlen_nonneg msg : 0 <= strlen msg.
Proof. unfold strlen. lia. Qed.

Lemma strlen_app a b : strlen (a ++ b) = strlen a + strlen b.
Proof. unfold strlen. rewrite length_app. lia. Qed.

Lemma firstn_plus {A} (a b : nat) (l : list A) :
  firstn (a + b) l = firstn a l ++ firstn b (skipn a l).
Proof.
  revert l. induction a as [|a IH]; intros l; [reflexivity|].
  destruct l as [|x l]; simpl.
  - rewrite firstn_nil. reflexivity.
  - rewrite IH. reflexivity.
Qed.

Lemma firstn_strlen msg : firstn (Z.to_nat (strlen msg)) msg = msg.
Proof. unfold strlen. rewrite Nat2Z.id. apply firstn_all. Qed.

Lemma wrap16_strlen msg :
  0 <= wrap16 (strlen msg) /\ wrap16 (strlen msg) < 65536 /\
  wrap16 (strlen msg) <= strlen msg.
Proof.
  pose proof (strlen_nonneg msg). unfold wrap16.
  pose proof (Z.mod_pos_bound (strlen msg) 65536).
  pose proof (Z.mod_le (strlen msg) 65536). lia.
Qed.

Lemma sent_small msg : strlen msg < 65536 -> sent msg = msg.
Proof.
  intros H. pose proof (strlen_nonneg msg). unfold sent.
  rewrite wrap16_small by lia. apply firstn_strlen.
Qed.

Lemma strlen_sent msg : strlen (sent msg) = wrap16 (strlen msg).
Proof.
  destruct (wrap16_strlen msg) as [H0 [H1 H2]].
  unfold sent, strlen in *. rewrite length_firstn. lia.
Qed.

Lemma TransmitAsync_ok com mem len w :
  com <> 0 ->
  0 <= len <= Z.of_nat (length mem) ->
  TransmitAsync com mem len w =
  Ret tt (add_trace [EvTransmit com (firstn (Z.to_nat len) mem)] w).
Proof.
  intros Hcom H. unfold TransmitAsync.
  replace (com =? 0) with false by (symmetry; apply Z.eqb_neq; exact Hcom).
  replace (len <? 0) with false by (symmetry; apply Z.ltb_ge; lia).
  replace (Z.of_nat (length mem) <? len) with false
    by (symmetry; apply Z.ltb_ge; lia).
  reflexivity.
Qed.

Lemma memcpy_ok dst off src n :
  0 <= off -> 0 <= n -> off + n <= Z.of_nat (length dst) ->
  n <= Z.of_nat (length src) ->
  memcpy dst off src n =
  Some (firstn (Z.to_nat off) dst ++ firstn (Z.to_nat n) src
        ++ skipn (Z.to_nat (off + n)) dst).
Proof.
  intros H1 H2 H3 H4. unfold memcpy.
  replace (off <? 0) with false by (symmetry; apply Z.ltb_ge; lia).
  replace (n <? 0) with false by (symmetry; apply Z.ltb_ge; lia).
  replace (Z.of_nat (length dst) <? off + n) with false
    by (symmetry; apply Z.ltb_ge; lia).
  replace (Z.of_nat (length src) <? n) with false
    by (symmetry; apply Z.ltb_ge; lia).
  reflexivity.
Qed.

(** Unfolds the plumbing of the computations and reduces what is known. *)
Ltac run :=
  repeat (cbv beta iota delta
            [bind this get ret modify emit fault add_trace
             xSemaphoreTake xSemaphoreGive osDelay];
          cbn [debugHandle handleCreated Connected trace
               com_ mutex_ _TaskHandle debugPulsePin_ messageBuffer_
               currentBufferLocation_
               set_debugHandle set_handleCreated set_com set_mutex
               set_TaskHandle set_debugPulsePin set_messageBuffer
               set_currentBufferLocation negb]).

Section MessageFacts.

Variable capacity : Z.
Variable fuel : nat.

(** *** Not bound, or not connected: nothing happens *)

Lemma Message_offline msg w :
  com_ (debugHandle w) = 0 \/ Connected w (com_ (debugHandle w)) = false ->
  Message capacity fuel msg w = Ret tt w.
Proof.
  intros H. unfold Message, bind, this, get.
  destruct (com_ (debugHandle w) =? 0) eqn:E; [reflexivity|].
  destruct H as [H|H].
  - apply Z.eqb_neq in E. contradiction.
  - rewrite H. reflexivity.
Qed.

(** *** The message fits behind what is buffered *)

Lemma Message_fits msg w :
  online w -> wf capacity w ->
  wrap16 (strlen msg) <= capacity - currentBufferLocation_ (debugHandle w) ->
  let d := debugHandle w in
  let fill := currentBufferLocation_ d in
  let n := wrap16 (strlen msg) in
  Message capacity fuel msg w =
  Ret tt (add_trace [EvTake (mutex_ d); EvGive (mutex_ d)]
            (set_debugHandle
               (set_currentBufferLocation (fill + n)
                  (set_messageBuffer
                     (firstn (Z.to_nat fill) (messageBuffer_ d) ++ sent msg
                      ++ skipn (Z.to_nat (fill + n)) (messageBuffer_ d))
                     d)) w)).
Proof.
  intros [Hc Hon] [Hlen Hfill] Hfit d fill n. subst d fill n.
  destruct (wrap16_strlen msg) as [Hn0 [Hn1 Hn2]].
  apply Z.eqb_neq in Hc.
  unfold Message, Message_too_long.
  replace (wrap16 (strlen msg) >? capacity) with false
    by (symmetry; rewrite Z.gtb_ltb; apply Z.ltb_ge; lia).
  run. rewrite Hc, Hon. run.
  replace (wrap16 (strlen msg) >?
           capacity - currentBufferLocation_ (debugHandle w))
    with false by (symmetry; rewrite Z.gtb_ltb; apply Z.ltb_ge; lia).
  run.
  rewrite memcpy_ok by (unfold strlen in *; lia). run.
  unfold add_trace, set_debugHandle, set_currentBufferLocation,
    set_messageBuffer, sent.
  cbn. rewrite <- app_assoc. reflexivity.
Qed.

(** *** The message fits, but not behind what is buffered *)

Lemma Message_flush_first msg w :
  online w -> wf capacity w ->
  wrap16 (strlen msg) <= capacity ->
  capacity - currentBufferLocation_ (debugHandle w) < wrap16 (strlen msg) ->
  let d := debugHandle w in
  let n := wrap16 (strlen msg) in
  Message capacity fuel msg w =
  Ret tt (add_trace [EvTake (mutex_ d);
                     EvTransmit (com_ d) (buffered w);
                     EvGive (mutex_ d)]
            (set_debugHandle
               (set_currentBufferLocation n
                  (set_messageBuffer
                     (sent msg ++ skipn (Z.to_nat n) (messageBuffer_ d))
                     d)) w)).
Proof.
  intros [Hc Hon] [Hlen Hfill] Hcap Hfit d n. subst d n.
  destruct (wrap16_strlen msg) as [Hn0 [Hn1 Hn2]].
  pose proof Hc as Hnz. apply Z.eqb_neq in Hc.
  unfold Message, Message_too_long.
  replace (wrap16 (strlen msg) >? capacity) with false
    by (symmetry; rewrite Z.gtb_ltb; apply Z.ltb_ge; lia).
  run. rewrite Hc, Hon. run.
  replace (wrap16 (strlen msg) >?
           capacity - currentBufferLocation_ (debugHandle w))
    with true by (symmetry; rewrite Z.gtb_ltb; apply Z.ltb_lt; lia).
  run. rewrite TransmitAsync_ok by lia. run.
  rewrite memcpy_ok by (unfold strlen in *; lia). run.
  unfold add_trace, set_debugHandle, set_currentBufferLocation,
    set_messageBuffer, buffered, sent.
  cbn. rewrite <- !app_assoc. reflexivity.
Qed.

(** *** The message is longer than the buffer *)

Lemma Message_chunk_loop com msg :
  com <> 0 ->
  0 < capacity ->
  forall (n : nat) (msgPtr stringLength : Z) (w : World),
    0 <= msgPtr -> msgPtr + stringLength <= strlen msg ->
    0 <= stringLength < 65536 -> stringLength <= Z.of_nat n ->
    exists cs,
      while_ n (fun st => snd st >? 0) (Message_chunk capacity com msg)
             (msgPtr, stringLength) w =
      Ret (msgPtr + stringLength, 0) (add_trace (map (EvTransmit com) cs) w) /\
      concat cs = firstn (Z.to_nat stringLength) (skipn (Z.to_nat msgPtr) msg) /\
      Forall (fun c => strlen c = capacity) (removelast cs) /\
      (0 < stringLength ->
       strlen (last cs []) =
       if stringLength mod capacity =? 0 then capacity
       else stringLength mod capacity) /\
      Z.of_nat (length cs) = (stringLength + capacity - 1) / capacity.
Proof.
  intros Hcom Hcap n.
  induction n as [|n IH]; intros msgPtr stringLength w Hp Hsum Hlen Hn.
  - assert (stringLength = 0) by lia. subst stringLength.
    exists []. cbn [while_ snd]. simpl (0 >? 0).
    rewrite add_trace_nil, Z.add_0_r. unfold ret. repeat split.
    + constructor.
    + lia.
    + simpl. symmetry. apply Z.div_small. lia.
  - cbn [while_ snd].
    destruct (stringLength >? 0) eqn:Hpos.
    2:{ assert (stringLength = 0) by (rewrite Z.gtb_ltb in Hpos; apply Z.ltb_ge in Hpos; lia).
        subst stringLength. exists []. rewrite add_trace_nil, Z.add_0_r.
        unfold ret. repeat split.
        + constructor.
        + lia.
        + simpl. symmetry. apply Z.div_small. lia. }
    rewrite Z.gtb_ltb in Hpos. apply Z.ltb_lt in Hpos.
    unfold Message_chunk at 1.
    assert (Hskip : stringLength <= Z.of_nat (length (skipn (Z.to_nat msgPtr) msg)))
      by (rewrite length_skipn; unfold strlen in Hsum; lia).
    destruct (stringLength >? capacity) eqn:Hbig.
    + (* a full package, and more to come *)
      rewrite Z.gtb_ltb in Hbig. apply Z.ltb_lt in Hbig.
      rewrite (wrap16_small capacity) by lia.
      rewrite (wrap16_small (stringLength - capacity)) by lia.
      destruct (IH (msgPtr + capacity) (stringLength - capacity)
                   (add_trace [EvTransmit com (firstn (Z.to_nat capacity)
                                                 (skipn (Z.to_nat msgPtr) msg))] w))
        as (cs & Hrun & Hcat & Hfull & Hlast & Hcount); try lia.
      exists (firstn (Z.to_nat capacity) (skipn (Z.to_nat msgPtr) msg) :: cs).
      assert (Hcs : cs <> []).
      { intros ->. simpl in Hcount.
        assert (1 <= (stringLength - capacity + capacity - 1) / capacity)
          by (apply Z.div_le_lower_bound; lia).
        lia. }
      repeat split.
      * unfold bind at 1. unfold bind at 1.
        rewrite TransmitAsync_ok by lia. unfold ret at 1. cbv beta iota.
        rewrite Hrun, add_trace_add_trace. simpl app.
        replace (msgPtr + capacity + (stringLength - capacity))
          with (msgPtr + stringLength) by lia.
        reflexivity.
      * simpl concat. rewrite Hcat.
        replace (Z.to_nat (msgPtr + capacity))
          with (Z.to_nat capacity + Z.to_nat msgPtr)%nat by lia.
        rewrite <- skipn_skipn.
        replace (Z.to_nat stringLength)
          with (Z.to_nat capacity + Z.to_nat (stringLength - capacity))%nat
          by lia.
        symmetry. apply firstn_plus.
      * destruct cs as [|c cs']; [congruence|].
        change (removelast (?a :: c :: cs')) with (a :: removelast (c :: cs')).
        constructor; [|exact Hfull].
        unfold strlen. rewrite length_firstn. lia.
      * intros _. destruct cs as [|c cs']; [congruence|].
        change (last (?a :: c :: cs') []) with (last (c :: cs') []).
        rewrite Hlast by lia.
        replace (stringLength - capacity) with (stringLength + (-1) * capacity)
          by lia.
        rewrite Z.mod_add by lia. reflexivity.
      * simpl length. rewrite Nat2Z.inj_succ, Hcount.
        replace (stringLength + capacity - 1)
          with (stringLength - capacity + capacity - 1 + 1 * capacity) by lia.
        rewrite Z.div_add by lia. lia.
    + (* the last package *)
      rewrite Z.gtb_ltb in Hbig. apply Z.ltb_ge in Hbig.
      rewrite Z.sub_diag. change (wrap16 0) with 0.
      exists [firstn (Z.to_nat stringLength) (skipn (Z.to_nat msgPtr) msg)].
      repeat split.
      * unfold bind at 1. unfold bind at 1.
        rewrite TransmitAsync_ok by lia. unfold ret at 1. cbv beta iota.
        destruct n; reflexivity.
      * simpl. apply app_nil_r.
      * simpl. constructor.
      * intros _. simpl last. unfold strlen. rewrite length_firstn.
        rewrite Nat2Z.inj_min, Z2Nat.id by lia.
        rewrite Z.min_l by lia.
        destruct (Z.eq_dec stringLength capacity) as [->|Hne].
        -- rewrite Z.mod_same by lia. reflexivity.
        -- rewrite Z.mod_small by lia.
           replace (stringLength =? 0) with false
             by (symmetry; apply Z.eqb_neq; lia).
           reflexivity.
      * simpl length. symmetry.
        replace (stringLength + capacity - 1)
          with (stringLength - 1 + 1 * capacity) by lia.
        rewrite Z.div_add by lia. rewrite Z.div_small by lia. reflexivity.
Qed.

Lemma Message_split msg w :
  0 < capacity -> online w -> wf capacity w ->
  capacity < wrap16 (strlen msg) ->
  wrap16 (strlen msg) <= Z.of_nat fuel ->
  let d := debugHandle w in
  let n := wrap16 (strlen msg) in
  exists cs,
    Message capacity fuel msg w =
    Ret tt (add_trace ([EvTake (mutex_ d); EvTransmit (com_ d) (buffered w)]
                       ++ map (EvTransmit (com_ d)) cs ++ [EvGive (mutex_ d)])
              (set_debugHandle (set_currentBufferLocation 0 d) w)) /\
    concat cs = sent msg /\
    Forall (fun c => strlen c = capacity) (removelast cs) /\
    strlen (last cs []) =
      (if n mod capacity =? 0 then capacity else n mod capacity) /\
    Z.of_nat (length cs) = (n + capacity - 1) / capacity.
Proof.
  intros Hcap [Hc Hon] [Hlen Hfill] Hlong Hfuel d n. subst d n.
  destruct (wrap16_strlen msg) as [Hn0 [Hn1 Hn2]].
  pose proof Hc as Hnz. apply Z.eqb_neq in Hc.
  set (w1 := add_trace [EvTake (mutex_ (debugHandle w));
                        EvTransmit (com_ (debugHandle w)) (buffered w)]
               (set_debugHandle
                  (set_currentBufferLocation 0 (debugHandle w)) w)).
  destruct (Message_chunk_loop (com_ (debugHandle w)) msg Hnz Hcap fuel 0
                               (wrap16 (strlen msg)) w1)
    as (cs & Hrun & Hcat & Hfull & Hlast & Hcount); try lia.
  exists cs. repeat split; trivial.
  - unfold Message, Message_too_long.
    replace (wrap16 (strlen msg) >? capacity) with true
      by (symmetry; rewrite Z.gtb_ltb; apply Z.ltb_lt; lia).
    run. rewrite Hc, Hon. run.
    rewrite TransmitAsync_ok by lia. run.
    match goal with
    | |- context [while_ _ _ _ _ ?W] =>
        replace W with w1
          by (unfold w1, add_trace, set_debugHandle, buffered; cbn;
              rewrite <- app_assoc; reflexivity)
    end.
    rewrite Hrun. unfold w1, add_trace, set_debugHandle. cbn.
    rewrite <- !app_assoc. reflexivity.
  - apply Hlast. lia.
Qed.

(** *** All three cases at once *)

Lemma Message_online msg w :
  0 < capacity -> online w -> wf capacity w ->
  wrap16 (strlen msg) <= Z.of_nat fuel ->
  exists w',
    Message capacity fuel msg w = Ret tt w' /\
    online w' /\ wf capacity w' /\
    stream w' = stream w ++ sent msg /\
    delays (trace w') = delays (trace w).
Proof.
  intros Hcap Hon Hwf Hfuel.
  destruct (wrap16_strlen msg) as [Hn0 [Hn1 Hn2]].
  assert (Hs : Z.of_nat (length (sent msg)) = wrap16 (strlen msg))
    by apply strlen_sent.
  pose proof Hon as [Hc Hco]. pose proof Hwf as [Hlen Hfill].
  destruct (Z_lt_le_dec capacity (wrap16 (strlen msg))) as [Hlong|Hshort].
  - destruct (Message_split msg w Hcap Hon Hwf Hlong Hfuel)
      as (cs & Hrun & Hcat & _).
    eexists. split; [exact Hrun|].
    unfold online, wf, stream, buffered, add_trace, set_debugHandle. cbn.
    repeat split; trivial; try lia.
    + rewrite app_nil_r, transmits_app. cbn [transmits].
      rewrite transmits_app, transmits_map_EvTransmit. cbn [transmits].
      rewrite app_nil_r, concat_app. cbn [concat].
      rewrite Hcat, <- app_assoc. reflexivity.
    + rewrite delays_app. cbn [delays app].
      rewrite delays_app, delays_map_EvTransmit. cbn. apply app_nil_r.
  - destruct (Z_lt_le_dec (capacity - currentBufferLocation_ (debugHandle w))
                          (wrap16 (strlen msg))) as [Hflush|Hfit].
    + rewrite (Message_flush_first msg w Hon Hwf Hshort Hflush).
      eexists. split; [reflexivity|].
      unfold online, wf, stream, buffered, add_trace, set_debugHandle. cbn.
      repeat split; trivial; try lia.
      * rewrite length_app, length_skipn. lia.
      * rewrite transmits_app. cbn [transmits]. rewrite concat_app.
        cbn [concat]. rewrite app_nil_r. f_equal.
        apply firstn_exact. lia.
      * rewrite delays_app. cbn. apply app_nil_r.
    + rewrite (Message_fits msg w Hon Hwf Hfit).
      eexists. split; [reflexivity|].
      unfold online, wf, stream, buffered, add_trace, set_debugHandle. cbn.
      repeat split; trivial; try lia.
      * rewrite !length_app, length_firstn, length_skipn.
        lia.
      * rewrite transmits_app. cbn [transmits]. rewrite app_nil_r.
        rewrite <- (app_assoc (concat _)). f_equal.
        rewrite (app_assoc (firstn _ _)). apply firstn_exact.
        rewrite length_app, length_firstn. lia.
      * rewrite delays_app. cbn. apply app_nil_r.
Qed.

End MessageFacts.

(** * The statements of the specification *)

(** ** Splitting of long messages *)

(** C1, amended: for a text that is longer than the buffer and shorter than
    65536 bytes, on a bound and connected channel, [Message] first hands the
    buffered bytes to the transport and then the text, as packages [cs] in
    order: their concatenation is the text, every package but the last has
    [capacity] bytes, and the last has [strlen text mod capacity] bytes, or
    [capacity] when that is 0. *)
Theorem Message_long_text_chunks
        (capacity : Z) (fuel : nat) (text : list ascii) (w : World) :
  0 < capacity -> online w -> wf capacity w ->
  capacity < strlen text -> strlen text < 65536 ->
  strlen text <= Z.of_nat fuel ->
  exists cs w',
    Message capacity fuel text w = Ret tt w' /\
    transmits (trace w') = transmits (trace w) ++ buffered w :: cs /\
    concat cs = text /\
    Forall (fun c => strlen c = capacity) (removelast cs) /\
    strlen (last cs []) =
      (if strlen text mod capacity =? 0 then capacity
       else strlen text mod capacity).
Proof.
  intros Hcap Hon Hwf Hlong H16 Hfuel.
  pose proof (strlen_nonneg text) as H0.
  assert (Hw : wrap16 (strlen text) = strlen text) by (apply wrap16_small; lia).
  destruct (Message_split capacity fuel text w Hcap Hon Hwf)
    as (cs & Hrun & Hcat & Hfull & Hlast & _); try lia.
  rewrite Hw in Hlast. rewrite sent_small in Hcat by lia.
  exists cs. eexists. split; [exact Hrun|].
  repeat split; trivial.
  unfold add_trace, set_debugHandle. cbn [trace].
  rewrite transmits_app. cbn [app transmits].
  rewrite transmits_app, transmits_map_EvTransmit. cbn [transmits].
  rewrite app_nil_r. reflexivity.
Qed.

Lemma Message_long_text_chunks_witness :
  exists cs w',
    Message 4 10 (lit "HELLOWORLD") (example_world 4) = Ret tt w' /\
    transmits (trace w') =
      transmits (trace (example_world 4)) ++ buffered (example_world 4) :: cs /\
    concat cs = lit "HELLOWORLD" /\
    Forall (fun c => strlen c = 4) (removelast cs) /\
    strlen (last cs []) =
      (if strlen (lit "HELLOWORLD") mod 4 =? 0 then 4
       else strlen (lit "HELLOWORLD") mod 4).
Proof.
  apply (Message_long_text_chunks 4 10 (lit "HELLOWORLD") (example_world 4)).
  - lia.
  - split; [discriminate | reflexivity].
  - split; [reflexivity | simpl; lia].
  - reflexivity.
  - reflexivity.
  - vm_compute. discriminate.
Defined.

(** A text of 65541 bytes: [strlen] does not fit the [uint16_t] it is stored
    in, 5 is what is left of it, and only the first 5 bytes are sent. *)
Lemma Message_long_text_chunks_counterexample :
  let text := repeat "A"%char (Z.to_nat 65541) in
  4 < strlen text /\
  exists w',
    Message 4 10 text (example_world 4) = Ret tt w' /\
    transmits (trace w') = [[]; lit "AAAA"; lit "A"] /\
    concat (transmits (trace w')) <> text.
Proof.
  intros text. split; [vm_compute; reflexivity|].
  exists (add_trace [EvTake 2; EvTransmit 1 []; EvTransmit 1 (lit "AAAA");
                     EvTransmit 1 (lit "A"); EvGive 2] (example_world 4)).
  split; [vm_compute; reflexivity|].
  split; [reflexivity|].
  intros H. apply (f_equal strlen) in H.
  vm_compute in H. discriminate H.
Qed.

(** X8: the [TransmitAsync] calls of a long message: the first one hands
    over the buffer, whatever is in it, and then come the packages [cs] of
    the text, one for each [capacity] bytes or part of it, so that there are
    [1 + ceil (strlen text / capacity)] calls; the buffer is empty
    afterwards. *)
Lemma Message_long_text_transmit_count
      (capacity : Z) (fuel : nat) (text : list ascii) (w : World) :
  0 < capacity -> online w -> wf capacity w ->
  capacity < strlen text -> strlen text < 65536 ->
  strlen text <= Z.of_nat fuel ->
  exists w' cs,
    Message capacity fuel text w = Ret tt w' /\
    transmits (trace w') = transmits (trace w) ++ buffered w :: cs /\
    concat cs = text /\
    Z.of_nat (length cs) = (strlen text + capacity - 1) / capacity /\
    Z.of_nat (length (transmits (trace w'))) =
      Z.of_nat (length (transmits (trace w)))
      + 1 + (strlen text + capacity - 1) / capacity /\
    buffered w' = [].
Proof.
  intros Hcap Hon Hwf Hlong H16 Hfuel.
  pose proof (strlen_nonneg text) as H0.
  assert (Hw : wrap16 (strlen text) = strlen text) by (apply wrap16_small; lia).
  destruct (Message_split capacity fuel text w Hcap Hon Hwf)
    as (cs & Hrun & Hcat & _ & _ & Hcount); try lia.
  rewrite Hw in Hcount. rewrite sent_small in Hcat by lia.
  match type of Hrun with _ = Ret tt ?W => remember W as w' eqn:Ew end.
  assert (Htx : transmits (trace w') = transmits (trace w) ++ buffered w :: cs).
  { subst w'. unfold add_trace, set_debugHandle. cbn [trace].
    rewrite transmits_app. cbn [app transmits].
    rewrite transmits_app, transmits_map_EvTransmit. cbn [transmits].
    rewrite app_nil_r. reflexivity. }
  exists w', cs. split; [exact Hrun|]. split; [exact Htx|].
  split; [exact Hcat|]. split; [exact Hcount|]. split.
  - rewrite Htx, length_app. cbn [length]. lia.
  - subst w'. reflexivity.
Qed.

(** C3, on the code: with a buffer of 4 bytes, empty, the message
    "HELLOWORLD" makes four calls of [TransmitAsync], not three: the first
    one hands over the empty buffer. Nothing is left in the buffer. *)
Theorem Message_HELLOWORLD_transmits :
  exists w',
    Message 4 10 (lit "HELLOWORLD") (example_world 4) = Ret tt w' /\
    transmits (trace w') = [[]; lit "HELL"; lit "OWOR"; lit "LD"] /\
    length (transmits (trace w')) = 4%nat /\
    buffered w' = [].
Proof.
  eexists. split; [vm_compute; reflexivity|].
  repeat split.
Qed.

(** ** No channel *)

(** C4: when no channel is bound, or the bound channel is not connected,
    [Message] returns and the world is what it was: no call of
    [TransmitAsync], the same buffer, the same [currentBufferLocation_]. *)
Theorem Message_without_channel
        (capacity : Z) (fuel : nat) (text : list ascii) (w : World) :
  com_ (debugHandle w) = 0 \/ Connected w (com_ (debugHandle w)) = false ->
  Message capacity fuel text w = Ret tt w.
Proof. apply Message_offline. Qed.

Lemma Message_without_channel_witness :
  Message 4 10 (lit "HELLOWORLD") (unbound_world 4) = Ret tt (unbound_world 4).
Proof.
  apply (Message_without_channel 4 10 (lit "HELLOWORLD") (unbound_world 4)).
  left. reflexivity.
Defined.

(** ** Buffering *)

Lemma Message_fits_buffered
      (capacity : Z) (fuel : nat) (text : list ascii) (w : World) :
  online w -> wf capacity w -> strlen text < 65536 ->
  currentBufferLocation_ (debugHandle w) + strlen text <= capacity ->
  exists w',
    Message capacity fuel text w = Ret tt w' /\
    online w' /\ wf capacity w' /\
    buffered w' = buffered w ++ text /\
    currentBufferLocation_ (debugHandle w') =
      currentBufferLocation_ (debugHandle w) + strlen text /\
    transmits (trace w') = transmits (trace w).
Proof.
  intros Hon Hwf H16 Hfit.
  pose proof (strlen_nonneg text) as H0.
  assert (Hw : wrap16 (strlen text) = strlen text) by (apply wrap16_small; lia).
  pose proof Hon as [Hc Hco]. pose proof Hwf as [Hlen Hfill].
  rewrite (Message_fits capacity fuel text w Hon Hwf) by lia.
  rewrite Hw, sent_small by lia.
  eexists. split; [reflexivity|].
  unfold online, wf, buffered, add_trace, set_debugHandle. cbn.
  repeat split; trivial; try lia.
  - rewrite !length_app, length_firstn, length_skipn. unfold strlen in *. lia.
  - rewrite app_assoc. apply firstn_exact.
    rewrite length_app, length_firstn. unfold strlen in *. lia.
  - rewrite transmits_app. cbn. apply app_nil_r.
Qed.

Lemma Message_seq_fits (capacity : Z) (fuel : nat) (texts : list (list ascii)) :
  capacity <= 65535 ->
  forall w : World,
    online w -> wf capacity w ->
    currentBufferLocation_ (debugHandle w) + strlen (concat texts) <= capacity ->
    exists w',
      Message_seq capacity fuel texts w = Ret tt w' /\
      buffered w' = buffered w ++ concat texts /\
      currentBufferLocation_ (debugHandle w') =
        currentBufferLocation_ (debugHandle w) + strlen (concat texts) /\
      transmits (trace w') = transmits (trace w).
Proof.
  intros Hcap. induction texts as [|text texts IH]; intros w Hon Hwf Hfit.
  - exists w. cbn. rewrite app_nil_r. repeat split. unfold strlen. simpl. lia.
  - cbn [concat] in *. rewrite strlen_app in Hfit.
    pose proof (strlen_nonneg text). pose proof (strlen_nonneg (concat texts)).
    destruct Hwf as [Hlen Hfill].
    destruct (Message_fits_buffered capacity fuel text w Hon (conj Hlen Hfill))
      as (w1 & Hrun & Hon1 & Hwf1 & Hbuf1 & Hfill1 & Htx1); try lia.
    destruct (IH w1 Hon1 Hwf1) as (w' & Hrun' & Hbuf' & Hfill' & Htx'); try lia.
    exists w'. cbn [Message_seq]. unfold bind. rewrite Hrun.
    split; [exact Hrun'|].
    rewrite Hbuf', Hbuf1, Hfill', Hfill1, Htx', Htx1, strlen_app, <- app_assoc.
    repeat split. lia.
Qed.

(** C2: from an empty buffer, with a bound and connected channel, a sequence
    of [Message] calls whose texts have at most [capacity] bytes together
    leaves the texts, in the order of the calls, in
    [messageBuffer_[0..currentBufferLocation_)], with
    [currentBufferLocation_] the sum of their lengths, and calls
    [TransmitAsync] not once. [capacity] is at most 65535, so that a length
    up to [capacity] fits the 16 bits it is held in. *)
Theorem Message_seq_buffered
        (capacity : Z) (fuel : nat) (texts : list (list ascii)) (w : World) :
  capacity <= 65535 ->
  online w ->
  Z.of_nat (length (messageBuffer_ (debugHandle w))) = capacity ->
  currentBufferLocation_ (debugHandle w) = 0 ->
  strlen (concat texts) <= capacity ->
  exists w',
    Message_seq capacity fuel texts w = Ret tt w' /\
    buffered w' = concat texts /\
    currentBufferLocation_ (debugHandle w') = strlen (concat texts) /\
    transmits (trace w') = transmits (trace w).
Proof.
  intros Hcap Hon Hlen Hfill Hsum.
  pose proof (strlen_nonneg (concat texts)).
  destruct (Message_seq_fits capacity fuel texts Hcap w Hon)
    as (w' & Hrun & Hbuf & Hfill' & Htx).
  - split; [exact Hlen | lia].
  - lia.
  - exists w'. split; [exact Hrun|].
    rewrite Hbuf, Hfill', Hfill. unfold buffered. rewrite Hfill.
    repeat split; trivial.
Qed.

Lemma Message_seq_buffered_witness :
  exists w',
    Message_seq 4 0 [lit "ab"; lit "cd"] (example_world 4) = Ret tt w' /\
    buffered w' = concat [lit "ab"; lit "cd"] /\
    currentBufferLocation_ (debugHandle w') =
      strlen (concat [lit "ab"; lit "cd"]) /\
    transmits (trace w') = transmits (trace (example_world 4)).
Proof.
  apply (Message_seq_buffered 4 0 [lit "ab"; lit "cd"] (example_world 4)).
  - lia.
  - split; [discriminate | reflexivity].
  - reflexivity.
  - reflexivity.
  - vm_compute. discriminate.
Defined.

(** The example of the specification: "ab", "cd", then "e", with a buffer of
    4 bytes. The third call hands "abcd" to the transport and leaves "e". *)
Example Message_ab_cd_e :
  exists w',
    Message_seq 4 0 [lit "ab"; lit "cd"; lit "e"] (example_world 4) = Ret tt w' /\
    transmits (trace w') = [lit "abcd"] /\
    buffered w' = lit "e" /\
    currentBufferLocation_ (debugHandle w') = 1.
Proof. eexists. split; [vm_compute; reflexivity|]. repeat split. Qed.

(** ** The invariant of the buffer *)

Lemma Message_total (capacity : Z) (fuel : nat) (msg : list ascii) (w : World) :
  0 < capacity -> wf capacity w ->
  wrap16 (strlen msg) <= Z.of_nat fuel ->
  exists w',
    Message capacity fuel msg w = Ret tt w' /\
    wf capacity w' /\
    delays (trace w') = delays (trace w).
Proof.
  intros Hcap Hwf Hfuel.
  destruct (Z.eq_dec (com_ (debugHandle w)) 0) as [Hnull|Hbound].
  - exists w. split; [apply Message_offline; left; exact Hnull|].
    split; [exact Hwf | reflexivity].
  - destruct (Connected w (com_ (debugHandle w))) eqn:Hco.
    + destruct (Message_online capacity fuel msg w Hcap (conj Hbound Hco) Hwf Hfuel)
        as (w' & Hrun & _ & Hwf' & _ & Hd).
      exists w'. repeat split; trivial; apply Hwf'.
    + exists w. split; [apply Message_offline; right; exact Hco|].
      split; [exact Hwf | reflexivity].
Qed.

Lemma PackageGeneratorThread_body_flushes (capacity : Z) (w : World) :
  wf capacity w -> flush_safe w ->
  exists w',
    PackageGeneratorThread_body w = Ret tt w' /\
    wf capacity w' /\
    currentBufferLocation_ (debugHandle w') = 0 /\
    com_ (debugHandle w') = com_ (debugHandle w) /\
    transmits (trace w') =
      transmits (trace w) ++
      (if currentBufferLocation_ (debugHandle w) >? 0 then [buffered w] else []).
Proof.
  intros [Hlen Hfill] Hsafe. unfold PackageGeneratorThread_body. run.
  destruct (currentBufferLocation_ (debugHandle w) >? 0) eqn:Hpos.
  - assert (Hnz : com_ (debugHandle w) <> 0).
    { destruct Hsafe as [H|H]; [exact H|].
      rewrite H in Hpos. discriminate Hpos. }
    run. rewrite TransmitAsync_ok by (cbn; lia). run.
    eexists. split; [reflexivity|].
    unfold wf, buffered. cbn. repeat split; trivial; try lia.
    rewrite <- !app_assoc. rewrite transmits_app. reflexivity.
  - run. rewrite Z.gtb_ltb in Hpos. apply Z.ltb_ge in Hpos.
    eexists. split; [reflexivity|].
    unfold wf. cbn. repeat split; trivial; try lia.
    rewrite <- !app_assoc. rewrite transmits_app. reflexivity.
Qed.

(** With bytes waiting and no channel, the turn of the thread stops at the
    call through the null pointer: after the delay and the taking of the
    lock, with the buffer as it was. *)
Lemma PackageGeneratorThread_body_null (w : World) :
  com_ (debugHandle w) = 0 ->
  0 < currentBufferLocation_ (debugHandle w) ->
  PackageGeneratorThread_body w =
  Fault (add_trace [EvDelay 1; EvTake (mutex_ (debugHandle w))] w).
Proof.
  intros Hnull Hpos. unfold PackageGeneratorThread_body. run.
  replace (currentBufferLocation_ (debugHandle w) >? 0) with true
    by (symmetry; rewrite Z.gtb_ltb; apply Z.ltb_lt; exact Hpos).
  run. unfold TransmitAsync. rewrite Hnull. cbn [Z.eqb]. run.
  rewrite <- app_assoc. reflexivity.
Qed.

Lemma run_op_returns (capacity : Z) (fuel : nat) (op : Op) (w : World) :
  0 < capacity -> 65535 <= Z.of_nat fuel -> wf capacity w -> flush_safe w ->
  exists w1,
    run_op capacity fuel op w = Ret tt w1 /\ wf capacity w1 /\ flush_safe w1.
Proof.
  intros Hcap Hfuel Hwf Hsafe. destruct op as [msg|]; cbn [run_op].
  - destruct (wrap16_strlen msg) as [_ [H16 _]].
    destruct (Z.eq_dec (com_ (debugHandle w)) 0) as [Hnull|Hbound];
      [|destruct (Connected w (com_ (debugHandle w))) eqn:Hco].
    + exists w. split; [apply Message_offline; left; exact Hnull|].
      split; assumption.
    + destruct (Message_online capacity fuel msg w Hcap (conj Hbound Hco) Hwf)
        as (w1 & Hrun & [Hnz _] & Hwf1 & _); [lia|].
      exists w1. split; [exact Hrun|]. split; [exact Hwf1 | left; exact Hnz].
    + exists w. split; [apply Message_offline; right; exact Hco|].
      split; assumption.
  - destruct (PackageGeneratorThread_body_flushes capacity w Hwf Hsafe)
      as (w1 & Hrun & Hwf1 & Hfill1 & _).
    exists w1. split; [exact Hrun|]. split; [exact Hwf1 | right; exact Hfill1].
Qed.

Lemma run_ops_keeps_wf (capacity : Z) (fuel : nat) (ops : list Op) :
  0 < capacity -> 65535 <= Z.of_nat fuel ->
  forall w : World,
    wf capacity w -> wf capacity (world_of (run_ops capacity fuel ops w)).
Proof.
  intros Hcap Hfuel. induction ops as [|op ops IH]; intros w Hwf.
  - exact Hwf.
  - cbn [run_ops]. unfold bind.
    destruct (Z.eq_dec (com_ (debugHandle w)) 0) as [Hnull|Hbound].
    + destruct op as [msg|]; cbn [run_op].
      * rewrite Message_offline by (left; exact Hnull). apply IH. exact Hwf.
      * destruct (Z_lt_le_dec 0 (currentBufferLocation_ (debugHandle w)))
          as [Hpos|Hzero].
        -- rewrite (PackageGeneratorThread_body_null w Hnull Hpos).
           cbn [world_of]. exact Hwf.
        -- destruct (PackageGeneratorThread_body_flushes capacity w Hwf)
             as (w1 & Hrun & Hwf1 & _).
           { right. destruct Hwf as [_ Hfill]. lia. }
           rewrite Hrun. apply IH. exact Hwf1.
    + destruct (run_op_returns capacity fuel op w Hcap Hfuel Hwf)
        as (w1 & Hrun & Hwf1 & _); [left; exact Hbound|].
      rewrite Hrun. apply IH. exact Hwf1.
Qed.

Lemma run_ops_returns (capacity : Z) (fuel : nat) (ops : list Op) :
  0 < capacity -> 65535 <= Z.of_nat fuel ->
  forall w : World,
    wf capacity w -> flush_safe w ->
    exists w', run_ops capacity fuel ops w = Ret tt w' /\ wf capacity w'.
Proof.
  intros Hcap Hfuel. induction ops as [|op ops IH]; intros w Hwf Hsafe.
  - exists w. split; [reflexivity | exact Hwf].
  - destruct (run_op_returns capacity fuel op w Hcap Hfuel Hwf Hsafe)
      as (w1 & Hrun & Hwf1 & Hsafe1).
    cbn [run_ops]. unfold bind. rewrite Hrun. apply IH; assumption.
Qed.

(** C8: [0 <= currentBufferLocation_ <= MAX_DEBUG_TEXT_LENGTH] is kept by
    every call of [Message], whatever its text and whichever case it takes,
    and by every turn of the flushing thread. Started in a well-formed state,
    any sequence of them stops in a well-formed state, however it stops; and
    it runs to its end, unless the thread is to hand over bytes with no
    channel bound, where its call goes through a null pointer. The fuel is
    enough for the longest possible splitting loop. *)
Theorem fill_never_exceeds_capacity
        (capacity : Z) (fuel : nat) (ops : list Op) (w : World) :
  0 < capacity -> 65535 <= Z.of_nat fuel -> wf capacity w ->
  (let w' := world_of (run_ops capacity fuel ops w) in
   Z.of_nat (length (messageBuffer_ (debugHandle w'))) = capacity /\
   0 <= currentBufferLocation_ (debugHandle w') <= capacity) /\
  (com_ (debugHandle w) <> 0 \/ currentBufferLocation_ (debugHandle w) = 0 ->
   exists w',
     run_ops capacity fuel ops w = Ret tt w' /\
     Z.of_nat (length (messageBuffer_ (debugHandle w'))) = capacity /\
     0 <= currentBufferLocation_ (debugHandle w') <= capacity).
Proof.
  intros Hcap Hfuel Hwf. split.
  - exact (run_ops_keeps_wf capacity fuel ops Hcap Hfuel w Hwf).
  - intros Hsafe.
    destruct (run_ops_returns capacity fuel ops Hcap Hfuel w Hwf Hsafe)
      as (w' & Hrun & Hwf').
    exists w'. split; [exact Hrun | exact Hwf'].
Qed.

Lemma fill_never_exceeds_capacity_witness :
  (let w' := world_of (run_ops 4 (Z.to_nat 65535)
                               [OpMessage (lit "cde"); OpFlush;
                                OpMessage (lit "HELLOWORLD")]
                               (waiting_world 4)) in
   Z.of_nat (length (messageBuffer_ (debugHandle w'))) = 4 /\
   0 <= currentBufferLocation_ (debugHandle w') <= 4) /\
  exists w',
    run_ops 4 (Z.to_nat 65535)
            [OpMessage (lit "cde"); OpFlush; OpMessage (lit "HELLOWORLD")]
            (waiting_world 4) = Ret tt w' /\
    Z.of_nat (length (messageBuffer_ (debugHandle w'))) = 4 /\
    0 <= currentBufferLocation_ (debugHandle w') <= 4.
Proof.
  destruct (fill_never_exceeds_capacity 4 (Z.to_nat 65535)
              [OpMessage (lit "cde"); OpFlush; OpMessage (lit "HELLOWORLD")]
              (waiting_world 4)) as [Hkept Hruns].
  - lia.
  - lia.
  - split; [reflexivity | simpl; lia].
  - split; [exact Hkept|]. apply Hruns. left. discriminate.
Defined.

(** The thread's turn with bytes waiting and the channel taken away: the
    sequence stops there, and the buffer is still well-formed. *)
Example fill_kept_at_null_channel :
  run_ops 4 1 [OpMessage (lit "x"); OpFlush; OpMessage (lit "y")]
          (orphaned_world 4)
  = Fault (add_trace [EvDelay 1; EvTake 2] (orphaned_world 4)).
Proof. vm_compute. reflexivity. Qed.

(** ** The error reporter *)

Lemma while_true_never_returns {S : Type} (body : S -> M S) (fuel : nat) :
  forall (s : S) (w : World) (s' : S) (w' : World),
    while_ fuel (fun _ => true) body s w <> Ret s' w'.
Proof.
  induction fuel as [|n IH]; intros s w s' w'; cbn [while_].
  - discriminate.
  - unfold bind. destruct (body s w) as [s1 w1|w1|w1].
    + apply IH.
    + discriminate.
    + discriminate.
Qed.

Lemma while_true_times (body : M unit) (fuel : nat) (w : World) :
  while_ fuel (fun _ : unit => true) (fun _ => body) tt w =
  match times fuel body w with
  | Ret _ w' => OutOfFuel w'
  | OutOfFuel w' => OutOfFuel w'
  | Fault w' => Fault w'
  end.
Proof.
  revert w. induction fuel as [|n IH]; intros w; cbn [while_ times].
  - reflexivity.
  - unfold bind. destruct (body w) as [[] w1|w1|w1]; [apply IH| |]; reflexivity.
Qed.

(** Runs the first [Message] of a sequence with the step lemma [Hstep]. *)
Ltac next_message Hstep Hwf w1 Hwf1 Hd1 :=
  match goal with
  | |- context [bind (Message _ _ ?t) (fun _ => ?k) ?w0] =>
      destruct (Hstep t k w0 Hwf) as (w1 & -> & Hwf1 & Hd1)
  end.

Lemma Message_type_total
      (capacity : Z) (fuel : nat) (type functionName msg : list ascii)
      (w : World) :
  0 < capacity -> 65535 <= Z.of_nat fuel -> wf capacity w ->
  exists w',
    Message_type capacity fuel type functionName msg w = Ret tt w' /\
    wf capacity w' /\
    delays (trace w') = delays (trace w).
Proof.
  intros Hcap Hfuel Hwf. unfold Message_type.
  assert (Hstep : forall (text : list ascii) (k : M unit) (w0 : World),
             wf capacity w0 ->
             exists w1, (Message capacity fuel text ;; k) w0 = k w1 /\
                        wf capacity w1 /\
                        delays (trace w1) = delays (trace w0)).
  { intros text k w0 Hwf0.
    destruct (wrap16_strlen text) as [_ [H16 _]].
    destruct (Message_total capacity fuel text w0 Hcap Hwf0)
      as (w1 & Hrun & Hwf1 & Hd1); [lia|].
    exists w1. unfold bind. rewrite Hrun.
    split; [reflexivity | split; assumption]. }
  next_message Hstep Hwf w1 Hwf1 Hd1.
  next_message Hstep Hwf1 w2 Hwf2 Hd2.
  next_message Hstep Hwf2 w3 Hwf3 Hd3.
  next_message Hstep Hwf3 w4 Hwf4 Hd4.
  next_message Hstep Hwf4 w5 Hwf5 Hd5.
  destruct (wrap16_strlen newline) as [_ [H16 _]].
  destruct (Message_total capacity fuel newline w5 Hcap Hwf5)
    as (w6 & Hrun & Hwf6 & Hd6); [lia|].
  exists w6. split; [exact Hrun|]. split; [exact Hwf6|]. congruence.
Qed.

Lemma Message_type_stream
      (capacity : Z) (fuel : nat) (type functionName msg : list ascii)
      (w : World) :
  0 < capacity -> 65535 <= Z.of_nat fuel -> online w -> wf capacity w ->
  exists w',
    Message_type capacity fuel type functionName msg w = Ret tt w' /\
    online w' /\ wf capacity w' /\
    stream w' =
      stream w ++ sent type ++ lit "[" ++ sent functionName ++ lit "] "
             ++ sent msg ++ newline.
Proof.
  intros Hcap Hfuel Hon Hwf. unfold Message_type.
  assert (Hstep : forall (text : list ascii) (k : M unit) (w0 : World),
             online w0 /\ wf capacity w0 ->
             exists w1, (Message capacity fuel text ;; k) w0 = k w1 /\
                        (online w1 /\ wf capacity w1) /\
                        stream w1 = stream w0 ++ sent text).
  { intros text k w0 [Hon0 Hwf0].
    destruct (wrap16_strlen text) as [_ [H16 _]].
    destruct (Message_online capacity fuel text w0 Hcap Hon0 Hwf0)
      as (w1 & Hrun & Hon1 & Hwf1 & Hs1 & _); [lia|].
    exists w1. unfold bind. rewrite Hrun.
    split; [reflexivity | split; [split; assumption | assumption]]. }
  next_message Hstep (conj Hon Hwf) w1 Hok1 Hs1.
  next_message Hstep Hok1 w2 Hok2 Hs2.
  next_message Hstep Hok2 w3 Hok3 Hs3.
  next_message Hstep Hok3 w4 Hok4 Hs4.
  next_message Hstep Hok4 w5 Hok5 Hs5.
  destruct Hok5 as [Hon5 Hwf5].
  destruct (wrap16_strlen newline) as [_ [H16 _]].
  destruct (Message_online capacity fuel newline w5 Hcap Hon5 Hwf5)
    as (w6 & Hrun & Hon6 & Hwf6 & Hs6 & _); [lia|].
  exists w6. split; [exact Hrun|]. split; [exact Hon6|]. split; [exact Hwf6|].
  rewrite Hs6, Hs5, Hs4, Hs3, Hs2, Hs1.
  rewrite <- !app_assoc. reflexivity.
Qed.

Lemma Message_type_offline
      (capacity : Z) (fuel : nat) (type functionName msg : list ascii)
      (w : World) :
  ~ online w ->
  Message_type capacity fuel type functionName msg w = Ret tt w.
Proof.
  intros Hoff.
  assert (H : forall text, Message capacity fuel text w = Ret tt w).
  { intros text. apply Message_offline.
    destruct (Z.eq_dec (com_ (debugHandle w)) 0) as [E|E]; [left; exact E|].
    right. destruct (Connected w (com_ (debugHandle w))) eqn:Hc; [|reflexivity].
    exfalso. apply Hoff. split; assumption. }
  unfold Message_type, bind. rewrite !H. reflexivity.
Qed.

Lemma online_dec (w : World) : {online w} + {~ online w}.
Proof.
  unfold online.
  destruct (Z.eq_dec (com_ (debugHandle w)) 0) as [E|E].
  - right. intros [H _]. contradiction.
  - destruct (Connected w (com_ (debugHandle w))) eqn:Hc.
    + left. split; [exact E | reflexivity].
    + right. intros [_ H]. discriminate H.
Qed.

Lemma times_add (body : M unit) (n k : nat) (w : World) :
  times (n + k) body w =
  match times n body w with
  | Ret _ w1 => times k body w1
  | OutOfFuel w1 => OutOfFuel w1
  | Fault w1 => Fault w1
  end.
Proof.
  revert w. induction n as [|n IH]; intros w; cbn [times Nat.add].
  - reflexivity.
  - unfold bind. destruct (body w) as [[] w1|w1|w1]; [apply IH| |]; reflexivity.
Qed.

(** The rounds of the loop of [Error], any number of them. *)
Lemma Error_rounds_all
      (capacity : Z) (fuel : nat) (type functionName msg : list ascii) :
  0 < capacity -> 65535 <= Z.of_nat fuel ->
  forall (n : nat) (w : World),
    wf capacity w ->
    exists w',
      times n (Message_type capacity fuel type functionName msg ;; osDelay 500) w
      = Ret tt w' /\
      wf capacity w' /\
      delays (trace w') = delays (trace w) ++ repeat 500 n /\
      (online w ->
       stream w' =
         stream w ++
         concat (repeat (sent type ++ lit "[" ++ sent functionName ++ lit "] "
                         ++ sent msg ++ newline) n)) /\
      (~ online w -> stream w' = stream w).
Proof.
  intros Hcap Hfuel n. induction n as [|n IH]; intros w Hwf.
  - exists w. cbn [times repeat concat]. rewrite !app_nil_r.
    split; [reflexivity|]. split; [exact Hwf|]. repeat split.
  - assert (Hd0 : forall w1, stream (add_trace [EvDelay 500] w1) = stream w1).
    { intros w1. unfold stream, add_trace, buffered. cbn [trace debugHandle].
      rewrite transmits_app. cbn [transmits]. rewrite app_nil_r. reflexivity. }
    destruct (online_dec w) as [Hon|Hoff].
    + destruct (Message_type_stream capacity fuel type functionName msg w
                                    Hcap Hfuel Hon Hwf)
        as (w1 & Hrun & Hon1 & Hwf1 & Hs1).
      destruct (Message_type_total capacity fuel type functionName msg w
                                   Hcap Hfuel Hwf) as (w1' & Hrun' & _ & Hd1).
      rewrite Hrun in Hrun'. injection Hrun' as <-.
      destruct (IH (add_trace [EvDelay 500] w1) Hwf1)
        as (w' & Hrun2 & Hwf' & Hd & Hs & _).
      exists w'. cbn [times]. unfold bind at 1. unfold bind at 1.
      rewrite Hrun. unfold osDelay. rewrite emit_eq.
      split; [exact Hrun2|]. split; [exact Hwf'|]. split; [|split].
      * rewrite Hd. unfold add_trace. cbn [trace].
        rewrite delays_app, Hd1. cbn [delays repeat].
        rewrite <- app_assoc. reflexivity.
      * intros _. rewrite Hs by exact Hon1. cbn [repeat concat].
        rewrite Hd0, Hs1. rewrite <- !app_assoc. reflexivity.
      * intros Hoff. contradiction.
    + pose proof (Message_type_offline capacity fuel type functionName msg w Hoff)
        as Hrun.
      destruct (IH (add_trace [EvDelay 500] w) Hwf)
        as (w' & Hrun2 & Hwf' & Hd & _ & Hs).
      exists w'. cbn [times]. unfold bind at 1. unfold bind at 1.
      rewrite Hrun. unfold osDelay. rewrite emit_eq.
      split; [exact Hrun2|]. split; [exact Hwf'|]. split; [|split].
      * rewrite Hd. unfold add_trace. cbn [trace].
        rewrite delays_app. cbn [delays repeat app].
        rewrite <- app_assoc. reflexivity.
      * intros Hon. contradiction.
      * intros _. rewrite Hs by exact Hoff. apply Hd0.
Qed.

(** [Error] as a whole: it stops for lack of fuel only, after [fuel]
    rounds, and [wn] is where it is after [n] of them. *)
Lemma Error_runs
      (capacity : Z) (fuel : nat) (type functionName msg : list ascii)
      (w : World) :
  0 < capacity -> 65535 <= Z.of_nat fuel -> wf capacity w ->
  let round := (Message_type capacity fuel type functionName msg ;; osDelay 500) in
  let line := sent type ++ lit "[" ++ sent functionName ++ lit "] "
              ++ sent msg ++ newline in
  exists w',
    Error capacity fuel type functionName msg w = OutOfFuel w' /\
    times fuel round (add_trace [EvBkpt] w) = Ret tt w' /\
    forall n : nat,
      (n <= fuel)%nat ->
      exists wn,
        times n round (add_trace [EvBkpt] w) = Ret tt wn /\
        times (fuel - n) round wn = Ret tt w' /\
        delays (trace wn) = delays (trace w) ++ repeat 500 n /\
        (online w -> stream wn = stream w ++ concat (repeat line n)) /\
        (~ online w -> stream wn = stream w).
Proof.
  intros Hcap Hfuel Hwf round line.
  set (w0 := add_trace [EvBkpt] w).
  assert (Hwf0 : wf capacity w0) by exact Hwf.
  assert (Hs0 : stream w0 = stream w).
  { unfold w0, stream, add_trace, buffered. cbn [trace debugHandle].
    rewrite transmits_app. cbn [transmits]. rewrite app_nil_r. reflexivity. }
  assert (Hd0 : delays (trace w0) = delays (trace w)).
  { unfold w0, add_trace. cbn [trace]. rewrite delays_app. cbn. apply app_nil_r. }
  destruct (Error_rounds_all capacity fuel type functionName msg Hcap Hfuel
                             fuel w0 Hwf0) as (w' & Hrun & _).
  exists w'. split; [|split; [exact Hrun|]].
  - unfold Error. unfold bind at 1. rewrite emit_eq. unfold bind at 1.
    fold w0. rewrite while_true_times. fold round. fold round in Hrun.
    rewrite Hrun. reflexivity.
  - intros n Hn.
    destruct (Error_rounds_all capacity fuel type functionName msg Hcap Hfuel
                               n w0 Hwf0) as (wn & Hrunn & _ & Hd & Hon & Hoff).
    exists wn. split; [exact Hrunn|]. split; [|split; [|split]].
    + pose proof (times_add round n (fuel - n) w0) as Hadd.
      replace (n + (fuel - n))%nat with fuel in Hadd by lia.
      fold round in Hrun, Hrunn. rewrite Hrun, Hrunn in Hadd.
      symmetry. exact Hadd.
    + rewrite Hd, Hd0. reflexivity.
    + intros Honline. rewrite Hon, Hs0; [reflexivity | exact Honline].
    + intros Hoffline. rewrite Hoff, Hs0; [reflexivity | exact Hoffline].
Qed.

Lemma Error_without_exit
      (capacity : Z) (fuel : nat) (type functionName msg : list ascii)
      (w : World) (a : unit) (w' : World) :
  Error capacity fuel type functionName msg w <> Ret a w'.
Proof.
  unfold Error. unfold bind at 1. rewrite emit_eq. unfold bind at 1.
  destruct (while_ fuel _ _ tt (add_trace [EvBkpt] w)) as [s1 w1|w1|w1] eqn:E.
  - exfalso. exact (while_true_never_returns _ fuel tt _ s1 w1 E).
  - discriminate.
  - discriminate.
Qed.

(** C7: [Error] never returns, on any input and with any amount of fuel:
    after the breakpoint it is in a loop without exit. In a well-formed state
    the loop keeps going: when the fuel is used up, it has made as many
    rounds as there was fuel, each one a call of the composite [Message] and
    then [osDelay(500)]. After [n] rounds there have been [n] delays of 500
    and, on a connected channel, the line [type], "[", [functionName], "] ",
    [msg], line feed has entered the stream [n] times (each part cut to the
    16 bits of its length); without a channel nothing has. *)
Theorem Error_never_returns
        (capacity : Z) (fuel : nat) (type functionName msg : list ascii)
        (w : World) :
  (forall (a : unit) (w' : World),
      Error capacity fuel type functionName msg w <> Ret a w') /\
  (0 < capacity -> 65535 <= Z.of_nat fuel -> wf capacity w ->
   exists w',
     Error capacity fuel type functionName msg w = OutOfFuel w' /\
     times fuel (Message_type capacity fuel type functionName msg ;; osDelay 500)
           (add_trace [EvBkpt] w) = Ret tt w' /\
     delays (trace w') = delays (trace w) ++ repeat 500 fuel /\
     forall n : nat,
       (n <= fuel)%nat ->
       exists wn,
         times n (Message_type capacity fuel type functionName msg ;; osDelay 500)
               (add_trace [EvBkpt] w) = Ret tt wn /\
         times (fuel - n)
               (Message_type capacity fuel type functionName msg ;; osDelay 500)
               wn = Ret tt w' /\
         delays (trace wn) = delays (trace w) ++ repeat 500 n /\
         (online w ->
          stream wn =
            stream w ++
            concat (repeat (sent type ++ lit "[" ++ sent functionName
                            ++ lit "] " ++ sent msg ++ newline) n)) /\
         (~ online w -> stream wn = stream w)).
Proof.
  split.
  - intros a w'. apply Error_without_exit.
  - intros Hcap Hfuel Hwf.
    destruct (Error_runs capacity fuel type functionName msg w Hcap Hfuel Hwf)
      as (w' & Hrun & Htimes & Hrounds).
    exists w'. split; [exact Hrun|]. split; [exact Htimes|].
    split; [|exact Hrounds].
    destruct (Hrounds fuel (Nat.le_refl fuel)) as (wn & Hn & _ & Hd & _).
    rewrite Htimes in Hn. injection Hn as <-. exact Hd.
Qed.

Lemma Error_never_returns_witness :
  (forall (a : unit) (w' : World),
      Error 4 (Z.to_nat 65535) (lit "ERROR: ") (lit "f") (lit "m")
            (example_world 4) <> Ret a w') /\
  exists w',
    Error 4 (Z.to_nat 65535) (lit "ERROR: ") (lit "f") (lit "m")
          (example_world 4) = OutOfFuel w' /\
    times (Z.to_nat 65535)
          (Message_type 4 (Z.to_nat 65535) (lit "ERROR: ") (lit "f") (lit "m")
           ;; osDelay 500)
          (add_trace [EvBkpt] (example_world 4)) = Ret tt w' /\
    delays (trace w') =
      delays (trace (example_world 4)) ++ repeat 500 (Z.to_nat 65535) /\
    forall n : nat,
      (n <= Z.to_nat 65535)%nat ->
      exists wn,
        times n (Message_type 4 (Z.to_nat 65535) (lit "ERROR: ") (lit "f")
                              (lit "m") ;; osDelay 500)
              (add_trace [EvBkpt] (example_world 4)) = Ret tt wn /\
        times (Z.to_nat 65535 - n)
              (Message_type 4 (Z.to_nat 65535) (lit "ERROR: ") (lit "f")
                            (lit "m") ;; osDelay 500)
              wn = Ret tt w' /\
        delays (trace wn) = delays (trace (example_world 4)) ++ repeat 500 n /\
        (online (example_world 4) ->
         stream wn =
           stream (example_world 4) ++
           concat (repeat (sent (lit "ERROR: ") ++ lit "[" ++ sent (lit "f")
                           ++ lit "] " ++ sent (lit "m") ++ newline) n)) /\
        (~ online (example_world 4) -> stream wn = stream (example_world 4)).
Proof.
  destruct (Error_never_returns 4 (Z.to_nat 65535) (lit "ERROR: ") (lit "f")
                                (lit "m") (example_world 4)) as [Hnever Hruns].
  split; [exact Hnever|].
  apply Hruns.
  - lia.
  - lia.
  - split; [reflexivity | simpl; lia].
Defined.

(** Two rounds of the loop, with a buffer of 40 bytes. *)
Example Error_two_rounds :
  exists w',
    Error 40 2 (lit "E: ") (lit "f") (lit "m") (example_world 40) = OutOfFuel w' /\
    delays (trace w') = [500; 500] /\
    buffered w' = lit "E: [f] m" ++ newline ++ lit "E: [f] m" ++ newline.
Proof. eexists. split; [vm_compute; reflexivity|]. repeat split. Qed.

(** ** The composite entry points *)

(** The overload with [std::string] arguments does not look at [type]. *)
Lemma Message_type_string_is_Message_fn_string
      (capacity : Z) (fuel : nat) (type functionName msg : list ascii) :
  Message_type_string capacity fuel type functionName msg =
  Message_fn_string capacity fuel functionName msg.
Proof. reflexivity. Qed.

(** C9, on the code: the overload with [const char *] arguments emits
    [type], "[", [functionName], "] ", [msg] and a line feed; the overload
    with [std::string] arguments leaves [type] out. Here both are called with
    "ERROR: ", "f" and "m" on an empty buffer of 40 bytes. *)
Theorem Message_type_string_drops_type :
  exists w1 w2,
    Message_type 40 10 (lit "ERROR: ") (lit "f") (lit "m") (example_world 40)
    = Ret tt w1 /\
    buffered w1 = lit "ERROR: [f] m" ++ newline /\
    Message_type_string 40 10 (lit "ERROR: ") (lit "f") (lit "m")
                        (example_world 40)
    = Ret tt w2 /\
    buffered w2 = lit "[f] m" ++ newline.
Proof.
  eexists. eexists.
  split; [vm_compute; reflexivity|].
  split; [reflexivity|].
  split; [vm_compute; reflexivity|].
  reflexivity.
Qed.

(** ** Formatted output *)

Lemma c_str_app_zero (a rest : list ascii) :
  c_str (a ++ zero :: rest) = c_str a.
Proof.
  induction a as [|c a IH]; cbn [c_str app].
  - reflexivity.
  - destruct (Ascii.eqb c zero); [reflexivity | rewrite IH; reflexivity].
Qed.

Lemma c_str_length (s : list ascii) : (length (c_str s) <= length s)%nat.
Proof.
  induction s as [|c s IH]; cbn [c_str length].
  - lia.
  - destruct (Ascii.eqb c zero); cbn [length]; lia.
Qed.

Lemma c_str_without_zero (s : list ascii) : ~ In zero s -> c_str s = s.
Proof.
  induction s as [|c s IH]; intros Hz; cbn [c_str].
  - reflexivity.
  - destruct (Ascii.eqb c zero) eqn:E.
    + apply Ascii.eqb_eq in E. subst c. exfalso. apply Hz. left. reflexivity.
    + rewrite IH; [reflexivity|]. intros H. apply Hz. right. exact H.
Qed.

(** C10: with a scratch block of [capacity > 0] bytes, the text that
    [printf] passes to [Message] is the expansion of the format cut to
    [capacity - 1] bytes (and at its first NUL, if it has one): it has at most
    [capacity - 1] bytes, so the test for a message that is too long fails on
    it, and [printf] is [Message] on that text. *)
Theorem printf_text_bounded
        (capacity : Z) (fuel : nat) (rendered strBuf : list ascii) (w : World) :
  0 < capacity ->
  let text := printf_text capacity strBuf rendered in
  strlen text <= capacity - 1 /\
  text = c_str (firstn (Z.to_nat (capacity - 1)) rendered) /\
  (~ In zero rendered -> text = firstn (Z.to_nat (capacity - 1)) rendered) /\
  Message_too_long capacity text = false /\
  printf capacity fuel rendered (Some strBuf) w = Message capacity fuel text w.
Proof.
  intros Hcap text.
  assert (Htext : text = c_str (firstn (Z.to_nat (capacity - 1)) rendered)).
  { unfold text, printf_text, vsnprintf.
    replace (capacity <=? 0) with false by (symmetry; apply Z.leb_gt; lia).
    cbv zeta. rewrite <- !app_assoc. cbn [app]. apply c_str_app_zero. }
  assert (Hlen : strlen text <= capacity - 1).
  { rewrite Htext. unfold strlen.
    pose proof (c_str_length (firstn (Z.to_nat (capacity - 1)) rendered)) as H.
    rewrite length_firstn in H. lia. }
  split; [exact Hlen|]. split; [exact Htext|]. split; [|split].
  - intros Hz. rewrite Htext. apply c_str_without_zero.
    intros Hin. apply Hz.
    rewrite <- (firstn_skipn (Z.to_nat (capacity - 1)) rendered).
    apply in_or_app. left. exact Hin.
  - destruct (wrap16_strlen text) as [_ [_ Hle]].
    unfold Message_too_long. rewrite Z.gtb_ltb. apply Z.ltb_ge. lia.
  - fold text. unfold printf. run.
    destruct (com_ (debugHandle w) =? 0) eqn:Hc.
    + symmetry. apply Message_offline. left. apply Z.eqb_eq. exact Hc.
    + run. destruct (Connected w (com_ (debugHandle w))) eqn:Hco; run.
      * reflexivity.
      * symmetry. apply Message_offline. right. exact Hco.
Qed.

Lemma printf_text_bounded_witness :
  let text := printf_text 4 (lit "????") (lit "HELLOWORLD") in
  strlen text <= 4 - 1 /\
  text = c_str (firstn (Z.to_nat (4 - 1)) (lit "HELLOWORLD")) /\
  (~ In zero (lit "HELLOWORLD") ->
   text = firstn (Z.to_nat (4 - 1)) (lit "HELLOWORLD")) /\
  Message_too_long 4 text = false /\
  printf 4 10 (lit "HELLOWORLD") (Some (lit "????")) (example_world 4)
  = Message 4 10 text (example_world 4).
Proof.
  apply (printf_text_bounded 4 10 (lit "HELLOWORLD") (lit "????")
                             (example_world 4)).
  lia.
Defined.

(** What that call leaves in the buffer. *)
Example printf_HELLOWORLD :
  exists w',
    printf 4 10 (lit "HELLOWORLD") (Some (lit "????")) (example_world 4)
    = Ret tt w' /\
    buffered w' = lit "HEL" /\ transmits (trace w') = [].
Proof. eexists. split; [vm_compute; reflexivity|]. repeat split. Qed.

(** ** Binding of the channel *)

(** C5, amended: every call of [AssignDebugCOM] with a channel that is not
    null, the first as well as any later one, stores the channel, sets
    [currentBufferLocation_] to 0, zeroes the buffer and creates a lock; when
    the lock is there, it also spawns the flushing task, and when it is not,
    it goes to [ERROR] and spawns nothing. *)
Theorem AssignDebugCOM_binds
        (capacity : Z) (ERROR : list ascii -> M unit) (com sem task : Z)
        (w : World) :
  com <> 0 ->
  Z.of_nat (length (messageBuffer_ (debugHandle w))) = capacity ->
  let d := debugHandle w in
  let locked :=
    mkWorld (handleCreated w)
            (mkDebug com sem (_TaskHandle d) (debugPulsePin_ d)
                     (repeat zero (Z.to_nat capacity)) 0)
            (Connected w)
            (trace w ++ [EvSemaphoreCreate sem]) in
  AssignDebugCOM capacity ERROR com sem task w =
  if sem =? 0 then ERROR (lit "Could not create Debug mutex") locked
  else Ret tt (add_trace [EvQueueRegister sem; EvGive sem; EvTaskCreate]
                 (set_debugHandle (set_TaskHandle task (debugHandle locked))
                                  locked)).
Proof.
  intros Hcom Hlen d locked. subst d locked.
  unfold AssignDebugCOM. run.
  apply Z.eqb_neq in Hcom. rewrite Hcom. run.
  unfold memset0.
  replace (capacity <? 0) with false by (symmetry; apply Z.ltb_ge; lia).
  replace (Z.of_nat (length (messageBuffer_ (debugHandle w))) <? capacity)
    with false by (symmetry; apply Z.ltb_ge; lia).
  run. rewrite skipn_all2 by lia. rewrite app_nil_r.
  destruct (sem =? 0); run.
  - reflexivity.
  - unfold set_TaskHandle. cbn. rewrite <- !app_assoc. reflexivity.
Qed.

Lemma AssignDebugCOM_binds_witness :
  AssignDebugCOM 4 ERROR_diagnostic 1 2 3 (unbound_world 4) =
  Ret tt (mkWorld true (mkDebug 1 2 3 0 (repeat zero 4) 0) (fun _ => true)
                  [EvSemaphoreCreate 2; EvQueueRegister 2; EvGive 2;
                   EvTaskCreate]).
Proof.
  apply (AssignDebugCOM_binds 4 ERROR_diagnostic 1 2 3 (unbound_world 4)).
  - discriminate.
  - reflexivity.
Defined.

(** Two calls, one after the other: the second creates a second lock and
    spawns a second task. *)
Lemma AssignDebugCOM_twice_counterexample :
  exists w1 w2,
    AssignDebugCOM 4 ERROR_diagnostic 1 2 3 (unbound_world 4) = Ret tt w1 /\
    AssignDebugCOM 4 ERROR_diagnostic 1 5 6 w1 = Ret tt w2 /\
    locks_created (trace w1) = 1%nat /\ tasks_spawned (trace w1) = 1%nat /\
    locks_created (trace w2) = 2%nat /\ tasks_spawned (trace w2) = 2%nat /\
    mutex_ (debugHandle w2) <> mutex_ (debugHandle w1).
Proof.
  eexists. eexists.
  split; [vm_compute; reflexivity|].
  split; [vm_compute; reflexivity|].
  repeat split. discriminate.
Qed.

(** With a null channel nothing but [com_] is touched before [ERROR]. *)
Lemma AssignDebugCOM_null
      (capacity : Z) (ERROR : list ascii -> M unit) (sem task : Z) (w : World) :
  AssignDebugCOM capacity ERROR 0 sem task w =
  ERROR (lit "LSPC object does not exist")
        (set_debugHandle (set_com 0 (debugHandle w)) w).
Proof. reflexivity. Qed.

(** ** Construction *)

(** C6, with [ERROR] as the specification describes it at this place: a
    second construction returns; [handleCreated] and [debugHandle] are what
    they were, the report is in the trace, and the object under construction
    has a null channel and a null pin. *)
Theorem Debug_ctor_second_time (self : Debug) (w : World) :
  handleCreated w = true ->
  exists w',
    Debug_ctor ERROR_diagnostic self w =
      Ret (set_debugPulsePin 0 (set_com 0 self)) w' /\
    handleCreated w' = handleCreated w /\
    debugHandle w' = debugHandle w /\
    Connected w' = Connected w /\
    trace w' = trace w ++ [EvDiagnostic (lit "Debug object already created")].
Proof.
  intros Hcreated. unfold Debug_ctor, ERROR_diagnostic. run.
  rewrite Hcreated. run.
  eexists. split; [reflexivity|]. cbn. repeat split. exact Hcreated.
Qed.

Lemma Debug_ctor_second_time_witness :
  exists w',
    Debug_ctor ERROR_diagnostic (debugHandle (unbound_world 4))
               (example_world 4) =
      Ret (set_debugPulsePin 0 (set_com 0 (debugHandle (unbound_world 4)))) w' /\
    handleCreated w' = handleCreated (example_world 4) /\
    debugHandle w' = debugHandle (example_world 4) /\
    Connected w' = Connected (example_world 4) /\
    trace w' = trace (example_world 4)
               ++ [EvDiagnostic (lit "Debug object already created")].
Proof.
  apply (Debug_ctor_second_time (debugHandle (unbound_world 4))
                                (example_world 4)).
  reflexivity.
Defined.

(** The first construction sets [handleCreated] and reports nothing. *)
Lemma Debug_ctor_first_time
      (ERROR : list ascii -> M unit) (self : Debug) (w : World) :
  handleCreated w = false ->
  Debug_ctor ERROR self w =
  Ret (set_debugPulsePin 0 (set_com 0 self)) (set_handleCreated true w).
Proof.
  intros Hfresh. unfold Debug_ctor. run. rewrite Hfresh. run. reflexivity.
Qed.

(** Whether a second construction returns is decided by [ERROR] alone: if
    the macro were the reporter [Error], which never returns, the
    construction would not return either. *)
Lemma Debug_ctor_with_Error_never_returns
      (capacity : Z) (fuel : nat) (type functionName : list ascii)
      (self : Debug) (w : World) :
  handleCreated w = true ->
  forall (d : Debug) (w' : World),
    Debug_ctor (Error capacity fuel type functionName) self w <> Ret d w'.
Proof.
  intros Hcreated d w'. unfold Debug_ctor. run. rewrite Hcreated.
  destruct (Error capacity fuel type functionName
                  (lit "Debug object already created") w) as [a w1|w1|w1] eqn:E.
  - exfalso.
    exact (Error_without_exit capacity fuel type functionName
             (lit "Debug object already created") w a w1 E).
  - discriminate.
  - discriminate.
Qed.

(** * More about the relay *)

(** ** One operation, seen from outside *)

Lemma held_app t1 t2 : held (t1 ++ t2) = held t1 + held t2.
Proof.
  induction t1 as [|e t1 IH]; cbn [held app]; [reflexivity|].
  destruct e; rewrite ?IH; lia.
Qed.

Lemma held_map_EvTransmit com pk : held (map (EvTransmit com) pk) = 0.
Proof. induction pk; cbn [held map]; congruence. Qed.

Lemma same_setup_refl w : same_setup w w.
Proof. repeat split. Qed.

Lemma same_setup_trans w1 w2 w3 :
  same_setup w1 w2 -> same_setup w2 w3 -> same_setup w1 w3.
Proof.
  unfold same_setup. intros (A1 & A2 & A3 & A4 & A5 & A6) (B1 & B2 & B3 & B4 & B5 & B6).
  repeat split; congruence.
Qed.

Lemma same_setup_online w w' : same_setup w w' -> online w -> online w'.
Proof.
  unfold same_setup, online. intros (_ & HC & Hcom & _) [H1 H2].
  rewrite Hcom, HC. split; assumption.
Qed.

Lemma Forall_removelast_last {A} (P : A -> Prop) (l : list A) (d : A) :
  l <> [] -> Forall P (removelast l) -> P (last l d) -> Forall P l.
Proof.
  intros Hne Hfront Hlast.
  rewrite (app_removelast_last d Hne). apply Forall_app. split; [exact Hfront|].
  constructor; [exact Hlast | constructor].
Qed.

Lemma buffered_length (capacity : Z) (w : World) :
  wf capacity w ->
  strlen (buffered w) = currentBufferLocation_ (debugHandle w).
Proof.
  intros [Hlen Hfill]. unfold strlen, buffered. rewrite length_firstn. lia.
Qed.

(** A call of [Message] on a connected channel: the trace it adds, the
    packages [pk] in it, and what it leaves in the buffer. *)
Lemma Message_online_trace
      (capacity : Z) (fuel : nat) (msg : list ascii) (w : World) :
  0 < capacity -> online w -> wf capacity w ->
  wrap16 (strlen msg) <= Z.of_nat fuel ->
  exists w' pk,
    Message capacity fuel msg w = Ret tt w' /\
    trace w' = trace w ++ EvTake (mutex_ (debugHandle w))
                       :: map (EvTransmit (com_ (debugHandle w))) pk
                       ++ [EvGive (mutex_ (debugHandle w))] /\
    Forall (fun p => strlen p <= capacity) pk /\
    concat pk ++ buffered w' = buffered w ++ sent msg /\
    (wrap16 (strlen msg) <= capacity ->
     (pk = [] /\ buffered w' = buffered w ++ sent msg) \/
     (pk = [buffered w] /\ buffered w <> [] /\ buffered w' = sent msg)) /\
    (capacity < wrap16 (strlen msg) ->
     buffered w' = [] /\ exists cs, pk = buffered w :: cs /\ concat cs = sent msg) /\
    same_setup w w' /\ wf capacity w'.
Proof.
  intros Hcap Hon Hwf Hfuel.
  destruct (wrap16_strlen msg) as [Hn0 [Hn1 Hn2]].
  assert (Hs : Z.of_nat (length (sent msg)) = wrap16 (strlen msg))
    by apply strlen_sent.
  pose proof (buffered_length capacity w Hwf) as Hbl.
  pose proof Hon as [Hc Hco]. pose proof Hwf as [Hlen Hfill].
  destruct (Z_lt_le_dec capacity (wrap16 (strlen msg))) as [Hlong|Hshort].
  - destruct (Message_split capacity fuel msg w Hcap Hon Hwf Hlong Hfuel)
      as (cs & Hrun & Hcat & Hfull & Hlast & Hcount).
    match type of Hrun with _ = Ret tt ?W => remember W as w' eqn:Ew end.
    assert (Htr : trace w' = trace w ++ EvTake (mutex_ (debugHandle w))
                    :: map (EvTransmit (com_ (debugHandle w))) (buffered w :: cs)
                    ++ [EvGive (mutex_ (debugHandle w))])
      by (subst w'; reflexivity).
    assert (Hbuf : buffered w' = []) by (subst w'; reflexivity).
    assert (Hset : same_setup w w') by (subst w'; repeat split).
    assert (Hwf' : wf capacity w')
      by (subst w'; unfold wf; cbn; split; [exact Hlen | lia]).
    exists w', (buffered w :: cs). rewrite Hbuf.
    split; [exact Hrun|]. split; [exact Htr|].
    split; [|split; [|split; [|split; [|split; assumption]]]].
    + constructor; [lia|].
      assert (Hne : cs <> []).
      { intros ->. simpl in Hcount.
        assert (1 <= (wrap16 (strlen msg) + capacity - 1) / capacity)
          by (apply Z.div_le_lower_bound; lia).
        lia. }
      apply (Forall_removelast_last _ cs [] Hne).
      * eapply Forall_impl; [|exact Hfull]. cbv beta. intros a Ha. lia.
      * rewrite Hlast.
        pose proof (Z.mod_pos_bound (wrap16 (strlen msg)) capacity Hcap).
        destruct (wrap16 (strlen msg) mod capacity =? 0); lia.
    + cbn [concat]. rewrite app_nil_r, Hcat. reflexivity.
    + intros Hle. lia.
    + intros _. split; [reflexivity|].
      exists cs. split; [reflexivity | exact Hcat].
  - destruct (Z_lt_le_dec (capacity - currentBufferLocation_ (debugHandle w))
                          (wrap16 (strlen msg))) as [Hflush|Hfit].
    + pose proof (Message_flush_first capacity fuel msg w Hon Hwf Hshort Hflush)
        as Hrun. cbv zeta in Hrun.
      match type of Hrun with _ = Ret tt ?W => remember W as w' eqn:Ew end.
      assert (Htr : trace w' = trace w ++ EvTake (mutex_ (debugHandle w))
                      :: map (EvTransmit (com_ (debugHandle w))) [buffered w]
                      ++ [EvGive (mutex_ (debugHandle w))])
        by (subst w'; reflexivity).
      assert (Hbuf : buffered w' = sent msg).
      { subst w'. unfold buffered. cbn. apply firstn_exact. lia. }
      assert (Hset : same_setup w w') by (subst w'; repeat split).
      assert (Hwf' : wf capacity w').
      { subst w'. unfold wf. cbn. split; [|lia].
        rewrite length_app, length_skipn. lia. }
      exists w', [buffered w]. rewrite Hbuf.
      split; [exact Hrun|]. split; [exact Htr|].
      split; [|split; [|split; [|split; [|split; assumption]]]].
      * constructor; [lia | constructor].
      * cbn [concat]. rewrite app_nil_r. reflexivity.
      * intros _. right. repeat split.
        intros E. rewrite E in Hbl. unfold strlen in Hbl. simpl in Hbl. lia.
      * intros Hgt. lia.
    + pose proof (Message_fits capacity fuel msg w Hon Hwf Hfit) as Hrun.
      cbv zeta in Hrun.
      match type of Hrun with _ = Ret tt ?W => remember W as w' eqn:Ew end.
      assert (Htr : trace w' = trace w ++ EvTake (mutex_ (debugHandle w))
                      :: map (EvTransmit (com_ (debugHandle w))) []
                      ++ [EvGive (mutex_ (debugHandle w))])
        by (subst w'; reflexivity).
      assert (Hbuf : buffered w' = buffered w ++ sent msg).
      { subst w'. unfold buffered. cbn. rewrite app_assoc. apply firstn_exact.
        rewrite length_app, length_firstn. lia. }
      assert (Hset : same_setup w w') by (subst w'; repeat split).
      assert (Hwf' : wf capacity w').
      { subst w'. unfold wf. cbn. split; [|lia].
        rewrite !length_app, length_firstn, length_skipn. lia. }
      exists w', []. rewrite Hbuf.
      split; [exact Hrun|]. split; [exact Htr|].
      split; [|split; [|split; [|split; [|split; assumption]]]].
      * constructor.
      * reflexivity.
      * intros _. left. split; reflexivity.
      * intros Hgt. lia.
Qed.

(** A turn of the flushing thread: the trace it adds. *)
Lemma PackageGeneratorThread_body_trace (capacity : Z) (w : World) :
  wf capacity w -> flush_safe w ->
  exists w',
    PackageGeneratorThread_body w = Ret tt w' /\
    trace w' = trace w ++ EvDelay 1 :: EvTake (mutex_ (debugHandle w))
                 :: map (EvTransmit (com_ (debugHandle w)))
                        (if currentBufferLocation_ (debugHandle w) >? 0
                         then [buffered w] else [])
                 ++ [EvGive (mutex_ (debugHandle w))] /\
    currentBufferLocation_ (debugHandle w') = 0 /\
    messageBuffer_ (debugHandle w') = messageBuffer_ (debugHandle w) /\
    same_setup w w' /\ wf capacity w'.
Proof.
  intros [Hlen Hfill] Hsafe. unfold PackageGeneratorThread_body. run.
  destruct (currentBufferLocation_ (debugHandle w) >? 0) eqn:Hpos.
  - assert (Hnz : com_ (debugHandle w) <> 0).
    { destruct Hsafe as [H|H]; [exact H|].
      rewrite H in Hpos. discriminate Hpos. }
    run. rewrite TransmitAsync_ok by (cbn; lia). run.
    eexists. split; [reflexivity|].
    unfold wf, same_setup, buffered. cbn.
    repeat split; trivial; try lia.
    rewrite <- !app_assoc. reflexivity.
  - run. rewrite Z.gtb_ltb in Hpos. apply Z.ltb_ge in Hpos.
    eexists. split; [reflexivity|].
    unfold wf, same_setup. cbn.
    repeat split; trivial; try lia.
    rewrite <- !app_assoc. reflexivity.
Qed.

(** Any operation in a well-formed state: it returns; what it hands to the
    transport are packages of at most [capacity] bytes; the lock is given
    back; on a connected channel the stream grows by the text, cut to 16 bits
    of length, and by nothing else. *)
Lemma run_op_outside
      (capacity : Z) (fuel : nat) (op : Op) (w : World) :
  0 < capacity -> 65535 <= Z.of_nat fuel -> wf capacity w -> flush_safe w ->
  exists w' pk,
    run_op capacity fuel op w = Ret tt w' /\
    transmits (trace w') = transmits (trace w) ++ pk /\
    Forall (fun p => strlen p <= capacity) pk /\
    held (trace w') = held (trace w) /\
    (online w -> stream w' = stream w ++ concat (map sent (texts_of [op]))) /\
    (~ online w -> stream w' = stream w) /\
    same_setup w w' /\ (wf capacity w' /\ flush_safe w').
Proof.
  intros Hcap Hfuel Hwf Hsafe.
  destruct op as [msg|]; cbn [run_op texts_of map concat].
  - destruct (wrap16_strlen msg) as [_ [H16 _]].
    destruct (Z.eq_dec (com_ (debugHandle w)) 0) as [Hnull|Hbound];
      [|destruct (Connected w (com_ (debugHandle w))) eqn:Hco].
    + exists w, []. rewrite Message_offline by (left; exact Hnull).
      rewrite !app_nil_r.
      split; [reflexivity|]. split; [reflexivity|]. split; [constructor|].
      split; [reflexivity|].
      split; [intros [Hc _]; contradiction|]. split; [reflexivity|].
      split; [apply same_setup_refl | split; assumption].
    + destruct (Message_online_trace capacity fuel msg w Hcap (conj Hbound Hco) Hwf)
        as (w' & pk & Hrun & Htr & Hsize & Hcat & _ & _ & Hset & Hwf'); [lia|].
      exists w', pk. split; [exact Hrun|].
      assert (Htx : transmits (trace w') = transmits (trace w) ++ pk).
      { rewrite Htr, transmits_app. cbn [transmits].
        rewrite transmits_app, transmits_map_EvTransmit. cbn [transmits].
        rewrite app_nil_r. reflexivity. }
      split; [exact Htx|]. split; [exact Hsize|].
      split; [|split; [|split; [|split; [exact Hset|split; [exact Hwf'|]]]]].
      * rewrite Htr, held_app. cbn [held].
        rewrite held_app, held_map_EvTransmit. cbn [held]. lia.
      * intros _. unfold stream. rewrite Htx, concat_app, app_nil_r.
        rewrite <- !app_assoc. f_equal. exact Hcat.
      * intros Hoff. exfalso. apply Hoff. split; assumption.
      * left. destruct Hset as (_ & _ & Hcom & _). rewrite Hcom. exact Hbound.
    + exists w, []. rewrite Message_offline by (right; exact Hco).
      rewrite !app_nil_r.
      split; [reflexivity|]. split; [reflexivity|]. split; [constructor|].
      split; [reflexivity|].
      split; [intros [_ Hc]; congruence|]. split; [reflexivity|].
      split; [apply same_setup_refl | split; assumption].
  - destruct (PackageGeneratorThread_body_trace capacity w Hwf Hsafe)
      as (w' & Hrun & Htr & Hfill' & Hbuf' & Hset & Hwf').
    pose proof (buffered_length capacity w Hwf) as Hbl.
    destruct Hwf as [Hlen Hfill].
    exists w', (if currentBufferLocation_ (debugHandle w) >? 0
                then [buffered w] else []).
    split; [exact Hrun|].
    assert (Htx : transmits (trace w') =
                  transmits (trace w) ++
                  (if currentBufferLocation_ (debugHandle w) >? 0
                   then [buffered w] else [])).
    { rewrite Htr, transmits_app. cbn [transmits].
      rewrite transmits_app, transmits_map_EvTransmit. cbn [transmits].
      rewrite app_nil_r. reflexivity. }
    assert (Hstream : stream w' = stream w).
    { unfold stream. rewrite Htx. unfold buffered at 2. rewrite Hfill'.
      cbn [Z.to_nat firstn]. rewrite app_nil_r, concat_app.
      destruct (currentBufferLocation_ (debugHandle w) >? 0) eqn:Hpos.
      - cbn [concat]. rewrite app_nil_r. reflexivity.
      - rewrite Z.gtb_ltb in Hpos. apply Z.ltb_ge in Hpos.
        assert (currentBufferLocation_ (debugHandle w) = 0) as E by lia.
        unfold buffered. rewrite E. reflexivity. }
    split; [exact Htx|].
    split; [|split; [|split; [|split; [|split; [exact Hset|split; [exact Hwf'|]]]]]].
    + destruct (currentBufferLocation_ (debugHandle w) >? 0);
        [constructor; [lia | constructor] | constructor].
    + rewrite Htr, held_app. cbn [held].
      rewrite held_app, held_map_EvTransmit. cbn [held]. lia.
    + intros _. rewrite app_nil_r. exact Hstream.
    + intros _. exact Hstream.
    + right. exact Hfill'.
Qed.

Lemma same_setup_sym w w' : same_setup w w' -> same_setup w' w.
Proof.
  unfold same_setup. intros (A1 & A2 & A3 & A4 & A5 & A6).
  repeat split; congruence.
Qed.

(** ** Any interleaving of producers and the flushing thread *)

Lemma run_ops_outside (capacity : Z) (fuel : nat) (ops : list Op) :
  0 < capacity -> 65535 <= Z.of_nat fuel ->
  forall w : World,
    wf capacity w -> flush_safe w ->
    exists w' pk,
      run_ops capacity fuel ops w = Ret tt w' /\
      transmits (trace w') = transmits (trace w) ++ pk /\
      Forall (fun p => strlen p <= capacity) pk /\
      held (trace w') = held (trace w) /\
      (online w -> stream w' = stream w ++ concat (map sent (texts_of ops))) /\
      (~ online w -> stream w' = stream w) /\
      same_setup w w' /\ wf capacity w'.
Proof.
  intros Hcap Hfuel. induction ops as [|op ops IH]; intros w Hwf Hsafe.
  - exists w, []. cbn. rewrite !app_nil_r.
    repeat split; trivial; apply Hwf.
  - destruct (run_op_outside capacity fuel op w Hcap Hfuel Hwf Hsafe)
      as (w1 & pk1 & Hrun1 & Htx1 & Hsz1 & Hheld1 & Hon1 & Hoff1 & Hset1
          & Hwf1 & Hsafe1).
    destruct (IH w1 Hwf1 Hsafe1)
      as (w' & pk & Hrun & Htx & Hsz & Hheld & Hon & Hoff & Hset & Hwf').
    exists w', (pk1 ++ pk). cbn [run_ops]. unfold bind. rewrite Hrun1.
    split; [exact Hrun|].
    split; [rewrite Htx, Htx1, app_assoc; reflexivity|].
    split; [apply Forall_app; split; assumption|].
    split; [congruence|].
    split; [|split; [|split; [eapply same_setup_trans; eassumption | exact Hwf']]].
    + intros Honline.
      rewrite Hon by (eapply same_setup_online; eassumption).
      rewrite Hon1 by exact Honline.
      destruct op as [msg|]; cbn [texts_of map concat].
      * rewrite app_nil_r, <- app_assoc. reflexivity.
      * rewrite app_nil_r. reflexivity.
    + intros Hoffline.
      rewrite Hoff, Hoff1; trivial.
      intros Honline1. apply Hoffline.
      eapply same_setup_online; [apply same_setup_sym; exact Hset1 | exact Honline1].
Qed.

Lemma map_sent_small (texts : list (list ascii)) :
  Forall (fun text => strlen text < 65536) texts -> map sent texts = texts.
Proof.
  induction 1 as [|text texts Hs _ IH]; cbn [map]; [reflexivity|].
  rewrite sent_small, IH by exact Hs. reflexivity.
Qed.

(** X1: on a connected channel, whatever the order in which tasks call
    [Message] and the thread takes its turns, and whether a text is buffered,
    makes the buffer go out first, or is split: the bytes handed to the
    transport followed by the bytes in the buffer are what they were before,
    followed by the texts in the order of the calls. Nothing is lost, doubled
    or reordered, as long as every text is shorter than 65536 bytes. *)
Theorem relay_keeps_the_stream
        (capacity : Z) (fuel : nat) (ops : list Op) (w : World) :
  0 < capacity -> 65535 <= Z.of_nat fuel -> wf capacity w -> online w ->
  Forall (fun text => strlen text < 65536) (texts_of ops) ->
  exists w',
    run_ops capacity fuel ops w = Ret tt w' /\
    concat (transmits (trace w')) ++ buffered w' =
    concat (transmits (trace w)) ++ buffered w ++ concat (texts_of ops).
Proof.
  intros Hcap Hfuel Hwf Hon Hsmall.
  destruct (run_ops_outside capacity fuel ops Hcap Hfuel w Hwf
                            (or_introl (proj1 Hon)))
    as (w' & _ & Hrun & _ & _ & _ & Hstream & _).
  exists w'. split; [exact Hrun|].
  specialize (Hstream Hon). unfold stream in Hstream.
  rewrite Hstream, map_sent_small by exact Hsmall.
  rewrite <- app_assoc. reflexivity.
Qed.

Lemma relay_keeps_the_stream_witness :
  exists w',
    run_ops 4 (Z.to_nat 65535)
            [OpMessage (lit "ab"); OpMessage (lit "cde"); OpFlush;
             OpMessage (lit "HELLOWORLD")] (example_world 4) = Ret tt w' /\
    concat (transmits (trace w')) ++ buffered w' =
    concat (transmits (trace (example_world 4))) ++ buffered (example_world 4)
    ++ concat (texts_of [OpMessage (lit "ab"); OpMessage (lit "cde"); OpFlush;
                         OpMessage (lit "HELLOWORLD")]).
Proof.
  apply (relay_keeps_the_stream 4 (Z.to_nat 65535)).
  - lia.
  - lia.
  - split; [reflexivity | simpl; lia].
  - split; [discriminate | reflexivity].
  - repeat constructor.
Defined.

(** X2: a text of 65536 bytes or more is cut: what enters the stream are its
    first [strlen mod 65536] bytes. *)
Theorem relay_cuts_long_texts
        (capacity : Z) (fuel : nat) (ops : list Op) (w : World) :
  0 < capacity -> 65535 <= Z.of_nat fuel -> wf capacity w -> online w ->
  exists w',
    run_ops capacity fuel ops w = Ret tt w' /\
    stream w' =
    stream w ++
    concat (map (fun text => firstn (Z.to_nat (strlen text mod 65536)) text)
                (texts_of ops)).
Proof.
  intros Hcap Hfuel Hwf Hon.
  destruct (run_ops_outside capacity fuel ops Hcap Hfuel w Hwf
                            (or_introl (proj1 Hon)))
    as (w' & _ & Hrun & _ & _ & _ & Hstream & _).
  exists w'. split; [exact Hrun | exact (Hstream Hon)].
Qed.

Lemma relay_cuts_long_texts_witness :
  exists w',
    run_ops 4 (Z.to_nat 65535)
            [OpMessage (lit "ab"); OpFlush] (example_world 4) = Ret tt w' /\
    stream w' =
    stream (example_world 4) ++
    concat (map (fun text => firstn (Z.to_nat (strlen text mod 65536)) text)
                (texts_of [OpMessage (lit "ab"); OpFlush])).
Proof.
  apply (relay_cuts_long_texts 4 (Z.to_nat 65535)).
  - lia.
  - lia.
  - split; [reflexivity | simpl; lia].
  - split; [discriminate | reflexivity].
Defined.

Lemma In_OpFlush_after_Message (msg : list ascii) (ops : list Op) :
  In OpFlush (OpMessage msg :: ops) <-> In OpFlush ops.
Proof.
  split; [intros [H|H]; [discriminate H | exact H] | intros H; right; exact H].
Qed.

Lemma offline_idle (capacity : Z) (fuel : nat) (ops : list Op) :
  forall w : World,
    wf capacity w -> ~ online w ->
    currentBufferLocation_ (debugHandle w) = 0 ->
    exists w',
      run_ops capacity fuel ops w = Ret tt w' /\
      transmits (trace w') = transmits (trace w) /\
      buffered w' = [] /\
      (~ In OpFlush ops -> w' = w).
Proof.
  induction ops as [|op ops IH]; intros w Hwf Hoff Hzero.
  - exists w. split; [reflexivity|]. split; [reflexivity|].
    split; [unfold buffered; rewrite Hzero; reflexivity | reflexivity].
  - assert (Hm : forall m, Message capacity fuel m w = Ret tt w).
    { intros m. apply Message_offline.
      destruct (Z.eq_dec (com_ (debugHandle w)) 0) as [E|E]; [left; exact E|].
      right. destruct (Connected w (com_ (debugHandle w))) eqn:Hc; [|reflexivity].
      exfalso. apply Hoff. split; assumption. }
    destruct op as [msg|]; cbn [run_ops run_op]; unfold bind.
    + rewrite Hm. destruct (IH w Hwf Hoff Hzero) as (w' & Hrun & Htx & Hb & Hsame).
      exists w'. split; [exact Hrun|]. split; [exact Htx|]. split; [exact Hb|].
      intros Hno. apply Hsame. intros H. apply Hno.
      apply In_OpFlush_after_Message. exact H.
    + destruct (PackageGeneratorThread_body_trace capacity w Hwf (or_intror Hzero))
        as (w1 & Hrun1 & Htr1 & Hfill1 & _ & Hset1 & Hwf1).
      rewrite Hrun1.
      assert (Hoff1 : ~ online w1).
      { intros H1. apply Hoff.
        eapply same_setup_online; [apply same_setup_sym; exact Hset1 | exact H1]. }
      destruct (IH w1 Hwf1 Hoff1 Hfill1) as (w' & Hrun & Htx & Hb & _).
      exists w'. split; [exact Hrun|]. split; [|split; [exact Hb|]].
      * rewrite Htx, Htr1, Hzero. cbn [Z.gtb Z.compare map app].
        rewrite transmits_app. cbn [transmits]. apply app_nil_r.
      * intros Hno. exfalso. apply Hno. left. reflexivity.
Qed.

(** X3: without a connected channel the texts are dropped: every call of
    [Message] leaves the world as it is. The thread does not ask whether the
    channel is connected: its first turn hands over what was buffered before,
    if there is a channel to call, and later turns have nothing to hand over.
    The hypothesis on the channel leaves out the state with bytes waiting and
    no channel bound, where the turn of the thread does not return. *)
Theorem relay_drops_texts_offline
        (capacity : Z) (fuel : nat) (ops : list Op) (w : World) :
  wf capacity w -> ~ online w ->
  com_ (debugHandle w) <> 0 \/ currentBufferLocation_ (debugHandle w) = 0 ->
  exists w',
    run_ops capacity fuel ops w = Ret tt w' /\
    concat (transmits (trace w')) ++ buffered w' =
    concat (transmits (trace w)) ++ buffered w /\
    (In OpFlush ops ->
     buffered w' = [] /\
     transmits (trace w') =
       transmits (trace w) ++
       (if currentBufferLocation_ (debugHandle w) >? 0 then [buffered w] else [])) /\
    (~ In OpFlush ops -> w' = w).
Proof.
  revert w. induction ops as [|op ops IH]; intros w Hwf Hoff Hsafe.
  - exists w. split; [reflexivity|]. split; [reflexivity|].
    split; [intros [] | reflexivity].
  - assert (Hm : forall m, Message capacity fuel m w = Ret tt w).
    { intros m. apply Message_offline.
      destruct (Z.eq_dec (com_ (debugHandle w)) 0) as [E|E]; [left; exact E|].
      right. destruct (Connected w (com_ (debugHandle w))) eqn:Hc; [|reflexivity].
      exfalso. apply Hoff. split; assumption. }
    destruct op as [msg|]; cbn [run_ops run_op]; unfold bind.
    + rewrite Hm.
      destruct (IH w Hwf Hoff Hsafe) as (w' & Hrun & Hs & Hflush & Hsame).
      exists w'. split; [exact Hrun|]. split; [exact Hs|]. split.
      * intros Hin. apply Hflush. apply In_OpFlush_after_Message in Hin. exact Hin.
      * intros Hno. apply Hsame. intros H. apply Hno.
        apply In_OpFlush_after_Message. exact H.
    + destruct (PackageGeneratorThread_body_trace capacity w Hwf Hsafe)
        as (w1 & Hrun1 & Htr1 & Hfill1 & _ & Hset1 & Hwf1).
      rewrite Hrun1.
      assert (Hoff1 : ~ online w1).
      { intros H1. apply Hoff.
        eapply same_setup_online; [apply same_setup_sym; exact Hset1 | exact H1]. }
      destruct (offline_idle capacity fuel ops w1 Hwf1 Hoff1 Hfill1)
        as (w' & Hrun & Htx & Hb & _).
      assert (Htx1 : transmits (trace w1) =
                     transmits (trace w) ++
                     (if currentBufferLocation_ (debugHandle w) >? 0
                      then [buffered w] else [])).
      { rewrite Htr1, transmits_app. cbn [transmits].
        rewrite transmits_app, transmits_map_EvTransmit. cbn [transmits].
        rewrite app_nil_r. reflexivity. }
      exists w'. split; [exact Hrun|]. split; [|split].
      * rewrite Hb, Htx, Htx1, app_nil_r, concat_app.
        destruct (currentBufferLocation_ (debugHandle w) >? 0) eqn:Hpos.
        -- cbn [concat]. rewrite app_nil_r. reflexivity.
        -- rewrite Z.gtb_ltb in Hpos. apply Z.ltb_ge in Hpos.
           destruct Hwf as [_ Hfill].
           assert (currentBufferLocation_ (debugHandle w) = 0) as E by lia.
           unfold buffered. rewrite E. reflexivity.
      * intros _. split; [exact Hb|]. rewrite Htx. exact Htx1.
      * intros Hno. exfalso. apply Hno. left. reflexivity.
Qed.

Lemma relay_drops_texts_offline_witness :
  exists w',
    run_ops 4 1 [OpMessage (lit "cd"); OpFlush; OpMessage (lit "e")]
            (disconnected_world 4) = Ret tt w' /\
    concat (transmits (trace w')) ++ buffered w' =
    concat (transmits (trace (disconnected_world 4)))
    ++ buffered (disconnected_world 4) /\
    (In OpFlush [OpMessage (lit "cd"); OpFlush; OpMessage (lit "e")] ->
     buffered w' = [] /\
     transmits (trace w') =
       transmits (trace (disconnected_world 4)) ++
       (if currentBufferLocation_ (debugHandle (disconnected_world 4)) >? 0
        then [buffered (disconnected_world 4)] else [])) /\
    (~ In OpFlush [OpMessage (lit "cd"); OpFlush; OpMessage (lit "e")] ->
     w' = disconnected_world 4).
Proof.
  apply (relay_drops_texts_offline 4 1).
  - split; [reflexivity | simpl; lia].
  - intros [_ Hco]. discriminate Hco.
  - left. discriminate.
Defined.

Lemma run_ops_packages (capacity : Z) (fuel : nat) (ops : list Op) :
  0 < capacity -> 65535 <= Z.of_nat fuel ->
  forall w : World,
    wf capacity w ->
    exists pk,
      transmits (trace (world_of (run_ops capacity fuel ops w))) =
        transmits (trace w) ++ pk /\
      Forall (fun p => strlen p <= capacity) pk.
Proof.
  intros Hcap Hfuel. induction ops as [|op ops IH]; intros w Hwf.
  - exists []. cbn. rewrite app_nil_r. split; [reflexivity | constructor].
  - cbn [run_ops]. unfold bind.
    destruct (Z_lt_le_dec 0 (currentBufferLocation_ (debugHandle w)))
      as [Hpos|Hzero];
      [destruct (Z.eq_dec (com_ (debugHandle w)) 0) as [Hnull|Hbound]|].
    + destruct op as [msg|]; cbn [run_op].
      * rewrite Message_offline by (left; exact Hnull). apply IH. exact Hwf.
      * rewrite (PackageGeneratorThread_body_null w Hnull Hpos).
        exists []. cbn [world_of add_trace trace].
        rewrite transmits_app. cbn [transmits].
        split; [reflexivity | constructor].
    + destruct (run_op_outside capacity fuel op w Hcap Hfuel Hwf
                               (or_introl Hbound))
        as (w1 & pk1 & Hrun1 & Htx1 & Hsz1 & _ & _ & _ & _ & Hwf1 & _).
      rewrite Hrun1. destruct (IH w1 Hwf1) as (pk & Htx & Hsz).
      exists (pk1 ++ pk). split; [|apply Forall_app; split; assumption].
      rewrite Htx, Htx1, app_assoc. reflexivity.
    + assert (Hsafe : flush_safe w).
      { right. destruct Hwf as [_ Hfill]. lia. }
      destruct (run_op_outside capacity fuel op w Hcap Hfuel Hwf Hsafe)
        as (w1 & pk1 & Hrun1 & Htx1 & Hsz1 & _ & _ & _ & _ & Hwf1 & _).
      rewrite Hrun1. destruct (IH w1 Hwf1) as (pk & Htx & Hsz).
      exists (pk1 ++ pk). split; [|apply Forall_app; split; assumption].
      rewrite Htx, Htx1, app_assoc. reflexivity.
Qed.

(** X4: no call of [TransmitAsync] by [Message] or by the thread carries more
    than [MAX_DEBUG_TEXT_LENGTH] bytes: this holds for the packages of any
    sequence of them from a well-formed state, however the sequence stops; and
    the sequence runs to its end when there is a channel bound or nothing
    waiting in the buffer. *)
Theorem relay_packages_fit
        (capacity : Z) (fuel : nat) (ops : list Op) (w : World) :
  0 < capacity -> 65535 <= Z.of_nat fuel -> wf capacity w ->
  (exists pk,
      transmits (trace (world_of (run_ops capacity fuel ops w))) =
        transmits (trace w) ++ pk /\
      Forall (fun p => strlen p <= capacity) pk) /\
  (com_ (debugHandle w) <> 0 \/ currentBufferLocation_ (debugHandle w) = 0 ->
   exists w' pk,
     run_ops capacity fuel ops w = Ret tt w' /\
     transmits (trace w') = transmits (trace w) ++ pk /\
     Forall (fun p => strlen p <= capacity) pk).
Proof.
  intros Hcap Hfuel Hwf. split.
  - exact (run_ops_packages capacity fuel ops Hcap Hfuel w Hwf).
  - intros Hsafe.
    destruct (run_ops_outside capacity fuel ops Hcap Hfuel w Hwf Hsafe)
      as (w' & pk & Hrun & Htx & Hsz & _).
    exists w', pk. repeat split; assumption.
Qed.

Lemma relay_packages_fit_witness :
  (exists pk,
      transmits (trace (world_of (run_ops 4 (Z.to_nat 65535)
                                          [OpMessage (lit "cde");
                                           OpMessage (lit "HELLOWORLD"); OpFlush]
                                          (waiting_world 4)))) =
        transmits (trace (waiting_world 4)) ++ pk /\
      Forall (fun p => strlen p <= 4) pk) /\
  exists w' pk,
    run_ops 4 (Z.to_nat 65535)
            [OpMessage (lit "cde"); OpMessage (lit "HELLOWORLD"); OpFlush]
            (waiting_world 4) = Ret tt w' /\
    transmits (trace w') = transmits (trace (waiting_world 4)) ++ pk /\
    Forall (fun p => strlen p <= 4) pk.
Proof.
  destruct (relay_packages_fit 4 (Z.to_nat 65535)
              [OpMessage (lit "cde"); OpMessage (lit "HELLOWORLD"); OpFlush]
              (waiting_world 4)) as [Hany Hruns].
  - lia.
  - lia.
  - split; [reflexivity | simpl; lia].
  - split; [exact Hany|]. apply Hruns. left. discriminate.
Defined.

(** X5: with a channel bound or nothing waiting in the buffer, [Message]
    and the thread give the lock back as often as they take it, and they
    leave alone the channel, the lock, the task handle, the pin,
    [handleCreated] and the size of the buffer. *)
Theorem relay_gives_the_lock_back
        (capacity : Z) (fuel : nat) (ops : list Op) (w : World) :
  0 < capacity -> 65535 <= Z.of_nat fuel -> wf capacity w ->
  com_ (debugHandle w) <> 0 \/ currentBufferLocation_ (debugHandle w) = 0 ->
  exists w',
    run_ops capacity fuel ops w = Ret tt w' /\
    held (trace w') = held (trace w) /\
    com_ (debugHandle w') = com_ (debugHandle w) /\
    mutex_ (debugHandle w') = mutex_ (debugHandle w) /\
    _TaskHandle (debugHandle w') = _TaskHandle (debugHandle w) /\
    debugPulsePin_ (debugHandle w') = debugPulsePin_ (debugHandle w) /\
    handleCreated w' = handleCreated w /\
    length (messageBuffer_ (debugHandle w')) =
    length (messageBuffer_ (debugHandle w)).
Proof.
  intros Hcap Hfuel Hwf Hsafe.
  destruct (run_ops_outside capacity fuel ops Hcap Hfuel w Hwf Hsafe)
    as (w' & _ & Hrun & _ & _ & Hheld & _ & _ & Hset & Hwf').
  destruct Hset as (H1 & H2 & H3 & H4 & H5 & H6).
  destruct Hwf as [Hlen _]. destruct Hwf' as [Hlen' _].
  exists w'. repeat split; trivial. lia.
Qed.

Lemma relay_gives_the_lock_back_witness :
  exists w',
    run_ops 4 (Z.to_nat 65535)
            [OpMessage (lit "cde"); OpMessage (lit "HELLOWORLD"); OpFlush]
            (waiting_world 4) = Ret tt w' /\
    held (trace w') = held (trace (waiting_world 4)) /\
    com_ (debugHandle w') = com_ (debugHandle (waiting_world 4)) /\
    mutex_ (debugHandle w') = mutex_ (debugHandle (waiting_world 4)) /\
    _TaskHandle (debugHandle w') = _TaskHandle (debugHandle (waiting_world 4)) /\
    debugPulsePin_ (debugHandle w')
    = debugPulsePin_ (debugHandle (waiting_world 4)) /\
    handleCreated w' = handleCreated (waiting_world 4) /\
    length (messageBuffer_ (debugHandle w')) =
    length (messageBuffer_ (debugHandle (waiting_world 4))).
Proof.
  apply (relay_gives_the_lock_back 4 (Z.to_nat 65535)).
  - lia.
  - lia.
  - split; [reflexivity | simpl; lia].
  - left. discriminate.
Defined.

(** X18: with bytes waiting and no channel bound, the thread does not get
    through its turn: after the delay it takes the lock and stops at the call
    through the null pointer, with the lock taken and the buffer as it was.
    Calls of [Message] before that turn change nothing, as there is no
    channel. *)
Theorem flush_without_channel_stops
        (capacity : Z) (fuel : nat) (ops : list Op) (w : World) :
  com_ (debugHandle w) = 0 ->
  0 < currentBufferLocation_ (debugHandle w) ->
  let stopped := add_trace [EvDelay 1; EvTake (mutex_ (debugHandle w))] w in
  ((0 < fuel)%nat -> PackageGeneratorThread fuel w = Fault stopped) /\
  (In OpFlush ops -> run_ops capacity fuel ops w = Fault stopped) /\
  held (trace stopped) = held (trace w) + 1 /\
  debugHandle stopped = debugHandle w /\
  transmits (trace stopped) = transmits (trace w).
Proof.
  intros Hnull Hpos stopped.
  pose proof (PackageGeneratorThread_body_null w Hnull Hpos) as Hbody.
  fold stopped in Hbody.
  split; [|split; [|split; [|split]]].
  - intros Hfuel. destruct fuel as [|n]; [lia|].
    unfold PackageGeneratorThread. cbn [while_]. unfold bind.
    rewrite Hbody. reflexivity.
  - induction ops as [|op ops IH]; intros Hin; [destruct Hin|].
    destruct op as [msg|]; cbn [run_ops run_op]; unfold bind.
    + rewrite Message_offline by (left; exact Hnull).
      apply IH. apply In_OpFlush_after_Message in Hin. exact Hin.
    + rewrite Hbody. reflexivity.
  - unfold stopped, add_trace. cbn [trace]. rewrite held_app. cbn [held]. lia.
  - reflexivity.
  - unfold stopped, add_trace. cbn [trace]. rewrite transmits_app.
    cbn [transmits]. apply app_nil_r.
Qed.

Lemma flush_without_channel_stops_witness :
  let stopped :=
    add_trace [EvDelay 1; EvTake (mutex_ (debugHandle (orphaned_world 4)))]
              (orphaned_world 4) in
  ((0 < 3)%nat -> PackageGeneratorThread 3 (orphaned_world 4) = Fault stopped) /\
  (In OpFlush [OpMessage (lit "x"); OpFlush] ->
   run_ops 4 3 [OpMessage (lit "x"); OpFlush] (orphaned_world 4)
   = Fault stopped) /\
  held (trace stopped) = held (trace (orphaned_world 4)) + 1 /\
  debugHandle stopped = debugHandle (orphaned_world 4) /\
  transmits (trace stopped) = transmits (trace (orphaned_world 4)).
Proof.
  apply (flush_without_channel_stops 4 3 [OpMessage (lit "x"); OpFlush]
                                     (orphaned_world 4)).
  - reflexivity.
  - reflexivity.
Defined.

(** ** Single calls of [Message] *)

(** X6: a text that fits the buffer is never split and never sent by the call
    itself: either it is put behind what is buffered, with no call of
    [TransmitAsync], or what is buffered, which is not empty then, goes out
    in one package and the text is alone in the buffer. *)
Theorem Message_short_text_stays_whole
        (capacity : Z) (fuel : nat) (text : list ascii) (w : World) :
  0 < capacity -> online w -> wf capacity w ->
  strlen text <= capacity -> strlen text < 65536 ->
  exists w',
    Message capacity fuel text w = Ret tt w' /\
    ((transmits (trace w') = transmits (trace w) /\
      buffered w' = buffered w ++ text /\
      strlen (buffered w) + strlen text <= capacity)
     \/
     (transmits (trace w') = transmits (trace w) ++ [buffered w] /\
      buffered w <> [] /\
      buffered w' = text /\
      capacity < strlen (buffered w) + strlen text)).
Proof.
  intros Hcap Hon Hwf Hfits H16.
  pose proof (strlen_nonneg text) as H0.
  assert (Hw : wrap16 (strlen text) = strlen text) by (apply wrap16_small; lia).
  pose proof (buffered_length capacity w Hwf) as Hbl.
  destruct (Z_lt_le_dec (capacity - currentBufferLocation_ (debugHandle w))
                        (strlen text)) as [Hflush|Hfit].
  - pose proof (Message_flush_first capacity fuel text w Hon Hwf) as Hrun.
    rewrite Hw in Hrun. specialize (Hrun Hfits Hflush). cbv zeta in Hrun.
    rewrite sent_small in Hrun by lia.
    match type of Hrun with _ = Ret tt ?W => remember W as w' eqn:Ew end.
    destruct Hwf as [Hlen Hfill].
    assert (Htx : transmits (trace w') = transmits (trace w) ++ [buffered w])
      by (subst w'; cbn; rewrite transmits_app; reflexivity).
    assert (Hbuf : buffered w' = text).
    { subst w'. unfold buffered. cbn. apply firstn_exact. unfold strlen. lia. }
    exists w'. split; [exact Hrun|]. right.
    split; [exact Htx|]. split; [|split; [exact Hbuf | lia]].
    intros E. rewrite E in Hbl. unfold strlen in Hbl. simpl in Hbl. lia.
  - destruct (Message_fits_buffered capacity fuel text w Hon Hwf H16)
      as (w' & Hrun & _ & _ & Hbuf & _ & Htx); [lia|].
    exists w'. split; [exact Hrun|]. left. repeat split; trivial. lia.
Qed.

Lemma Message_short_text_stays_whole_witness :
  exists w',
    Message 4 0 (lit "abc") (example_world 4) = Ret tt w' /\
    ((transmits (trace w') = transmits (trace (example_world 4)) /\
      buffered w' = buffered (example_world 4) ++ lit "abc" /\
      strlen (buffered (example_world 4)) + strlen (lit "abc") <= 4)
     \/
     (transmits (trace w') =
      transmits (trace (example_world 4)) ++ [buffered (example_world 4)] /\
      buffered (example_world 4) <> [] /\
      buffered w' = lit "abc" /\
      4 < strlen (buffered (example_world 4)) + strlen (lit "abc"))).
Proof.
  apply (Message_short_text_stays_whole 4 0 (lit "abc") (example_world 4)).
  - lia.
  - split; [discriminate | reflexivity].
  - split; [reflexivity | simpl; lia].
  - vm_compute. discriminate.
  - reflexivity.
Defined.

(** X7: a text whose length is a multiple of 65536, the empty text first of
    all, leaves no mark but the taking and giving of the lock: [strlen] is 0
    in the 16 bits it is stored in. *)
Theorem Message_length_multiple_of_65536
        (capacity : Z) (fuel : nat) (text : list ascii) (w : World) :
  0 < capacity -> online w -> wf capacity w ->
  strlen text mod 65536 = 0 ->
  exists w',
    Message capacity fuel text w = Ret tt w' /\
    debugHandle w' = debugHandle w /\
    trace w' = trace w ++ [EvTake (mutex_ (debugHandle w));
                           EvGive (mutex_ (debugHandle w))].
Proof.
  intros Hcap Hon Hwf Hmod.
  assert (Hw : wrap16 (strlen text) = 0) by exact Hmod.
  pose proof Hwf as [Hlen Hfill].
  pose proof (Message_fits capacity fuel text w Hon Hwf) as Hrun.
  unfold sent in Hrun. rewrite Hw in Hrun. cbv zeta in Hrun.
  rewrite Hrun by lia.
  eexists. split; [reflexivity|].
  unfold add_trace, set_debugHandle. cbn. split; [|reflexivity].
  rewrite Z.add_0_r, firstn_skipn.
  destruct (debugHandle w); reflexivity.
Qed.

Lemma Message_length_multiple_of_65536_witness :
  exists w',
    Message 4 0 [] (example_world 4) = Ret tt w' /\
    debugHandle w' = debugHandle (example_world 4) /\
    trace w' = trace (example_world 4)
               ++ [EvTake (mutex_ (debugHandle (example_world 4)));
                   EvGive (mutex_ (debugHandle (example_world 4)))].
Proof.
  apply (Message_length_multiple_of_65536 4 0 [] (example_world 4)).
  - lia.
  - split; [discriminate | reflexivity].
  - split; [reflexivity | simpl; lia].
  - reflexivity.
Defined.

(** ** The flushing thread *)




(** The thread in that world: "ab" goes out once, in the first turn. *)
Example PackageGeneratorThread_ab :
  exists w',
    PackageGeneratorThread 3 (waiting_world 4) = OutOfFuel w' /\
    transmits (trace w') = [lit "ab"] /\ delays (trace w') = [1; 1; 1].
Proof. eexists. split; [vm_compute; reflexivity|]. split; reflexivity. Qed.

(** ** The entry points built from [Message] *)

Lemma Message_then
      (capacity : Z) (fuel : nat) :
  0 < capacity -> 65535 <= Z.of_nat fuel ->
  forall (text : list ascii) (k : M unit) (w0 : World),
    online w0 /\ wf capacity w0 ->
    exists w1, (Message capacity fuel text ;; k) w0 = k w1 /\
               (online w1 /\ wf capacity w1) /\
               stream w1 = stream w0 ++ sent text.
Proof.
  intros Hcap Hfuel text k w0 [Hon0 Hwf0].
  destruct (wrap16_strlen text) as [_ [H16 _]].
  destruct (Message_online capacity fuel text w0 Hcap Hon0 Hwf0)
    as (w1 & Hrun & Hon1 & Hwf1 & Hs1 & _); [lia|].
  exists w1. unfold bind. rewrite Hrun.
  split; [reflexivity | split; [split; assumption | assumption]].
Qed.

Lemma Message_last
      (capacity : Z) (fuel : nat) :
  0 < capacity -> 65535 <= Z.of_nat fuel ->
  forall (text : list ascii) (w0 : World),
    online w0 /\ wf capacity w0 ->
    exists w1, Message capacity fuel text w0 = Ret tt w1 /\
               (online w1 /\ wf capacity w1) /\
               stream w1 = stream w0 ++ sent text.
Proof.
  intros Hcap Hfuel text w0 [Hon0 Hwf0].
  destruct (wrap16_strlen text) as [_ [H16 _]].
  destruct (Message_online capacity fuel text w0 Hcap Hon0 Hwf0)
    as (w1 & Hrun & Hon1 & Hwf1 & Hs1 & _); [lia|].
  exists w1. split; [exact Hrun | split; [split; assumption | assumption]].
Qed.

(** X10: the tagged form with C strings puts the whole line into the
    stream: [type], "[", [functionName], "] ", [msg] and a line feed, in this
    order and with nothing in between, however the parts fall on the
    packages. Each of the three strings is cut to its first
    [strlen mod 65536] bytes; strings shorter than 65536 bytes are there in
    full. *)
Theorem Message_type_emits_the_line
        (capacity : Z) (fuel : nat) (type functionName msg : list ascii)
        (w : World) :
  0 < capacity -> 65535 <= Z.of_nat fuel -> online w -> wf capacity w ->
  exists w',
    Message_type capacity fuel type functionName msg w = Ret tt w' /\
    stream w' =
      stream w ++ firstn (Z.to_nat (strlen type mod 65536)) type ++ lit "["
             ++ firstn (Z.to_nat (strlen functionName mod 65536)) functionName
             ++ lit "] "
             ++ firstn (Z.to_nat (strlen msg mod 65536)) msg ++ newline /\
    (strlen type < 65536 -> strlen functionName < 65536 -> strlen msg < 65536 ->
     stream w' =
       stream w ++ type ++ lit "[" ++ functionName ++ lit "] " ++ msg ++ newline).
Proof.
  intros Hcap Hfuel Hon Hwf.
  destruct (Message_type_stream capacity fuel type functionName msg w
                                Hcap Hfuel Hon Hwf) as (w' & Hrun & _ & _ & Hs).
  exists w'. split; [exact Hrun|]. split; [exact Hs|].
  intros Ht Hf Hm. rewrite Hs, !sent_small by assumption. reflexivity.
Qed.

Lemma Message_type_emits_the_line_witness :
  exists w',
    Message_type 4 (Z.to_nat 65535) (lit "ERROR: ") (lit "f") (lit "m")
                 (waiting_world 4) = Ret tt w' /\
    stream w' =
      stream (waiting_world 4)
      ++ firstn (Z.to_nat (strlen (lit "ERROR: ") mod 65536)) (lit "ERROR: ")
      ++ lit "["
      ++ firstn (Z.to_nat (strlen (lit "f") mod 65536)) (lit "f")
      ++ lit "] "
      ++ firstn (Z.to_nat (strlen (lit "m") mod 65536)) (lit "m") ++ newline /\
    (strlen (lit "ERROR: ") < 65536 -> strlen (lit "f") < 65536 ->
     strlen (lit "m") < 65536 ->
     stream w' =
       stream (waiting_world 4) ++ lit "ERROR: " ++ lit "[" ++ lit "f"
              ++ lit "] " ++ lit "m" ++ newline).
Proof.
  apply (Message_type_emits_the_line 4 (Z.to_nat 65535)).
  - lia.
  - lia.
  - split; [discriminate | reflexivity].
  - split; [reflexivity | simpl; lia].
Defined.

(** X11: the other forms: a [std::string] is passed as its C string, so what is
    behind a NUL in it is left out; the line form adds a line feed; the
    forms with a function name add "[", "] " and a line feed; and the form
    with [std::string] type emits what the form without a type emits. Every
    string enters the stream as [sent] of it: cut to its first
    [strlen mod 65536] bytes, which is all of it when it is shorter than
    65536 bytes. *)
Theorem Message_overloads_emit
        (capacity : Z) (fuel : nat) (type functionName msg : list ascii)
        (w : World) :
  0 < capacity -> 65535 <= Z.of_nat fuel -> online w -> wf capacity w ->
  (exists w',
      Message_string capacity fuel msg w = Ret tt w' /\
      stream w' = stream w ++ sent (c_str msg) ++ newline) /\
  (exists w',
      Message_fn capacity fuel functionName msg w = Ret tt w' /\
      stream w' = stream w ++ lit "[" ++ sent functionName ++ lit "] "
                         ++ sent msg ++ newline) /\
  (exists w',
      Message_fn_string capacity fuel functionName msg w = Ret tt w' /\
      stream w' = stream w ++ lit "[" ++ sent functionName ++ lit "] "
                         ++ sent (c_str msg) ++ newline) /\
  (exists w',
      Message_type_string capacity fuel type functionName msg w = Ret tt w' /\
      stream w' = stream w ++ lit "[" ++ sent functionName ++ lit "] "
                         ++ sent (c_str msg) ++ newline).
Proof.
  intros Hcap Hfuel Hon Hwf.
  pose proof (Message_then capacity fuel Hcap Hfuel) as Hstep.
  pose proof (Message_last capacity fuel Hcap Hfuel) as Hend.
  assert (Hfn : forall text,
             exists w',
               (Message capacity fuel (lit "[") ;;
                Message capacity fuel functionName ;;
                Message capacity fuel (lit "] ") ;;
                Message capacity fuel text ;;
                Message capacity fuel newline) w = Ret tt w' /\
               stream w' = stream w ++ lit "[" ++ sent functionName ++ lit "] "
                                  ++ sent text ++ newline).
  { intros text.
    next_message Hstep (conj Hon Hwf) w1 Hok1 Hs1.
    next_message Hstep Hok1 w2 Hok2 Hs2.
    next_message Hstep Hok2 w3 Hok3 Hs3.
    next_message Hstep Hok3 w4 Hok4 Hs4.
    destruct (Hend newline w4 Hok4) as (w5 & Hrun & _ & Hs5).
    exists w5. split; [exact Hrun|].
    rewrite Hs5, Hs4, Hs3, Hs2, Hs1. rewrite <- !app_assoc. reflexivity. }
  split; [|split; [|split]].
  - unfold Message_string.
    next_message Hstep (conj Hon Hwf) w1 Hok1 Hs1.
    destruct (Hend newline w1 Hok1) as (w2 & Hrun & _ & Hs2).
    exists w2. split; [exact Hrun|].
    rewrite Hs2, Hs1. rewrite <- !app_assoc. reflexivity.
  - exact (Hfn msg).
  - exact (Hfn (c_str msg)).
  - exact (Hfn (c_str msg)).
Qed.

Lemma Message_overloads_emit_witness :
  (exists w',
      Message_string 4 (Z.to_nat 65535) (lit "m") (example_world 4) = Ret tt w' /\
      stream w' = stream (example_world 4) ++ sent (c_str (lit "m")) ++ newline) /\
  (exists w',
      Message_fn 4 (Z.to_nat 65535) (lit "f") (lit "m") (example_world 4)
      = Ret tt w' /\
      stream w' = stream (example_world 4) ++ lit "[" ++ sent (lit "f")
                         ++ lit "] " ++ sent (lit "m") ++ newline) /\
  (exists w',
      Message_fn_string 4 (Z.to_nat 65535) (lit "f") (lit "m") (example_world 4)
      = Ret tt w' /\
      stream w' = stream (example_world 4) ++ lit "[" ++ sent (lit "f")
                         ++ lit "] " ++ sent (c_str (lit "m")) ++ newline) /\
  (exists w',
      Message_type_string 4 (Z.to_nat 65535) (lit "E") (lit "f") (lit "m")
                          (example_world 4) = Ret tt w' /\
      stream w' = stream (example_world 4) ++ lit "[" ++ sent (lit "f")
                         ++ lit "] " ++ sent (c_str (lit "m")) ++ newline).
Proof.
  apply (Message_overloads_emit 4 (Z.to_nat 65535)).
  - lia.
  - lia.
  - split; [discriminate | reflexivity].
  - split; [reflexivity | simpl; lia].
Defined.

(** X12: without a connected channel every entry point returns with the world
    as it was: the text is dropped without a sign. *)
Theorem entry_points_without_channel
        (capacity : Z) (fuel : nat) (type functionName msg rendered : list ascii)
        (block : option (list ascii)) (w : World) :
  com_ (debugHandle w) = 0 \/ Connected w (com_ (debugHandle w)) = false ->
  Message_string capacity fuel msg w = Ret tt w /\
  Message_fn capacity fuel functionName msg w = Ret tt w /\
  Message_fn_string capacity fuel functionName msg w = Ret tt w /\
  Message_type capacity fuel type functionName msg w = Ret tt w /\
  Message_type_string capacity fuel type functionName msg w = Ret tt w /\
  print capacity fuel msg w = Ret tt w /\
  Debug_print capacity fuel msg w = Ret tt w /\
  printf capacity fuel rendered block w = Ret tt w.
Proof.
  intros Hoff.
  assert (H : forall text, Message capacity fuel text w = Ret tt w)
    by (intros text; apply Message_offline; exact Hoff).
  unfold Message_string, Message_fn, Message_fn_string, Message_type,
    Message_type_string, print, Debug_print, print, bind.
  rewrite !H. repeat split; trivial.
  unfold printf. run.
  destruct (com_ (debugHandle w) =? 0) eqn:Hc; [reflexivity|]. run.
  destruct Hoff as [Hnull|Hco].
  - apply Z.eqb_neq in Hc. contradiction.
  - rewrite Hco. reflexivity.
Qed.

Lemma entry_points_without_channel_witness :
  Message_string 4 1 (lit "m") (unbound_world 4) = Ret tt (unbound_world 4) /\
  Message_fn 4 1 (lit "f") (lit "m") (unbound_world 4) = Ret tt (unbound_world 4) /\
  Message_fn_string 4 1 (lit "f") (lit "m") (unbound_world 4)
  = Ret tt (unbound_world 4) /\
  Message_type 4 1 (lit "E") (lit "f") (lit "m") (unbound_world 4)
  = Ret tt (unbound_world 4) /\
  Message_type_string 4 1 (lit "E") (lit "f") (lit "m") (unbound_world 4)
  = Ret tt (unbound_world 4) /\
  print 4 1 (lit "m") (unbound_world 4) = Ret tt (unbound_world 4) /\
  Debug_print 4 1 (lit "m") (unbound_world 4) = Ret tt (unbound_world 4) /\
  printf 4 1 (lit "x") (Some (lit "????")) (unbound_world 4)
  = Ret tt (unbound_world 4).
Proof.
  apply (entry_points_without_channel 4 1 (lit "E") (lit "f") (lit "m")
                                      (lit "x") (Some (lit "????"))
                                      (unbound_world 4)).
  left. reflexivity.
Defined.

(** ** Formatted output, again *)

Lemma printf_text_cut (capacity : Z) (strBuf rendered : list ascii) :
  0 < capacity ->
  printf_text capacity strBuf rendered =
  c_str (firstn (Z.to_nat (capacity - 1)) rendered).
Proof.
  intros Hcap. unfold printf_text, vsnprintf.
  replace (capacity <=? 0) with false by (symmetry; apply Z.leb_gt; lia).
  cbv zeta. rewrite <- !app_assoc. cbn [app]. apply c_str_app_zero.
Qed.

(** X13: [printf] on a connected channel, with a block from the heap: the
    expansion, cut to [capacity - 1] bytes and at its first NUL, goes into
    the buffer whole. The call hands to the transport at most what was
    buffered before, and never a byte of the new text. Without a block
    nothing happens at all. *)
Theorem printf_buffers_the_text
        (capacity : Z) (fuel : nat) (rendered strBuf : list ascii) (w : World) :
  0 < capacity -> capacity <= 65536 -> online w -> wf capacity w ->
  let text := c_str (firstn (Z.to_nat (capacity - 1)) rendered) in
  (exists w',
      printf capacity fuel rendered (Some strBuf) w = Ret tt w' /\
      ((transmits (trace w') = transmits (trace w) /\
        buffered w' = buffered w ++ text)
       \/
       (transmits (trace w') = transmits (trace w) ++ [buffered w] /\
        buffered w' = text))) /\
  printf capacity fuel rendered None w = Ret tt w.
Proof.
  intros Hcap Hmax Hon Hwf text.
  pose proof Hon as [Hc Hco]. apply Z.eqb_neq in Hc.
  assert (Hlen : strlen text <= capacity - 1).
  { unfold text, strlen.
    pose proof (c_str_length (firstn (Z.to_nat (capacity - 1)) rendered)) as H.
    rewrite length_firstn in H. lia. }
  split.
  - assert (Hp : printf capacity fuel rendered (Some strBuf) w =
                 Message capacity fuel text w).
    { unfold printf. run. rewrite Hc, Hco. run.
      rewrite printf_text_cut by exact Hcap. reflexivity. }
    rewrite Hp.
    pose proof (strlen_nonneg text) as H0.
    assert (Hw : wrap16 (strlen text) = strlen text)
      by (apply wrap16_small; lia).
    destruct (Z_lt_le_dec (capacity - currentBufferLocation_ (debugHandle w))
                          (strlen text)) as [Hflush|Hfit].
    + pose proof (Message_flush_first capacity fuel text w Hon Hwf) as Hrun.
      rewrite Hw in Hrun. cbv zeta in Hrun.
      rewrite sent_small in Hrun by lia. rewrite Hrun by lia.
      match goal with |- exists w', Ret tt ?W = _ /\ _ =>
        remember W as w1 eqn:Ew end.
      destruct Hwf as [Hl Hf].
      exists w1. split; [reflexivity|]. right. split.
      * subst w1. cbn. rewrite transmits_app. reflexivity.
      * subst w1. unfold buffered. cbn. apply firstn_exact. unfold strlen. lia.
    + destruct (Message_fits_buffered capacity fuel text w Hon Hwf)
        as (w' & Hrun & _ & _ & Hbuf & _ & Htx); [lia|lia|].
      exists w'. split; [exact Hrun|]. left. split; assumption.
  - unfold printf. run. rewrite Hc, Hco. reflexivity.
Qed.

Lemma printf_buffers_the_text_witness :
  let text := c_str (firstn (Z.to_nat (4 - 1)) (lit "HELLOWORLD")) in
  (exists w',
      printf 4 1 (lit "HELLOWORLD") (Some (lit "????")) (example_world 4)
      = Ret tt w' /\
      ((transmits (trace w') = transmits (trace (example_world 4)) /\
        buffered w' = buffered (example_world 4) ++ text)
       \/
       (transmits (trace w') =
        transmits (trace (example_world 4)) ++ [buffered (example_world 4)] /\
        buffered w' = text))) /\
  printf 4 1 (lit "HELLOWORLD") None (example_world 4)
  = Ret tt (example_world 4).
Proof.
  apply (printf_buffers_the_text 4 1 (lit "HELLOWORLD") (lit "????")
                                 (example_world 4)).
  - lia.
  - lia.
  - split; [discriminate | reflexivity].
  - split; [reflexivity | simpl; lia].
Defined.

(** ** The error reporter, again *)

(** X14: on a connected channel [Error] puts the line into the stream once
    in each round, whole: after [n] rounds, for every [n] up to the fuel, the
    stream has grown by [n] copies of it, each of the three strings cut to its
    first [strlen mod 65536] bytes. [Error_Handler] is [Error] with the line
    "ERROR: [Error_Handler] Global " and a line feed, and it never returns
    either. *)
Theorem Error_repeats_the_line
        (capacity : Z) (fuel : nat) (type functionName msg : list ascii)
        (w : World) :
  0 < capacity -> 65535 <= Z.of_nat fuel -> online w -> wf capacity w ->
  (exists w',
      Error capacity fuel type functionName msg w = OutOfFuel w' /\
      forall n : nat,
        (n <= fuel)%nat ->
        exists wn,
          times n (Message_type capacity fuel type functionName msg
                   ;; osDelay 500) (add_trace [EvBkpt] w) = Ret tt wn /\
          times (fuel - n) (Message_type capacity fuel type functionName msg
                            ;; osDelay 500) wn = Ret tt w' /\
          stream wn =
            stream w ++
            concat (repeat (firstn (Z.to_nat (strlen type mod 65536)) type
                            ++ lit "["
                            ++ firstn (Z.to_nat (strlen functionName mod 65536))
                                      functionName
                            ++ lit "] "
                            ++ firstn (Z.to_nat (strlen msg mod 65536)) msg
                            ++ newline) n)) /\
  (exists w',
      Error_Handler capacity fuel w = OutOfFuel w' /\
      forall n : nat,
        (n <= fuel)%nat ->
        exists wn,
          times n (Message_type capacity fuel (lit "ERROR: ")
                                (lit "Error_Handler") (lit "Global ")
                   ;; osDelay 500) (add_trace [EvBkpt] w) = Ret tt wn /\
          times (fuel - n) (Message_type capacity fuel (lit "ERROR: ")
                                         (lit "Error_Handler") (lit "Global ")
                            ;; osDelay 500) wn = Ret tt w' /\
          stream wn =
            stream w ++
            concat (repeat (lit "ERROR: [Error_Handler] Global " ++ newline) n)) /\
  (forall (a : unit) (w' : World), Error_Handler capacity fuel w <> Ret a w').
Proof.
  intros Hcap Hfuel Hon Hwf.
  assert (Hgen : forall t f m,
             exists w',
               Error capacity fuel t f m w = OutOfFuel w' /\
               forall n : nat,
                 (n <= fuel)%nat ->
                 exists wn,
                   times n (Message_type capacity fuel t f m ;; osDelay 500)
                         (add_trace [EvBkpt] w) = Ret tt wn /\
                   times (fuel - n) (Message_type capacity fuel t f m
                                     ;; osDelay 500) wn = Ret tt w' /\
                   stream wn =
                     stream w ++
                     concat (repeat (sent t ++ lit "[" ++ sent f ++ lit "] "
                                     ++ sent m ++ newline) n)).
  { intros t f m.
    destruct (Error_runs capacity fuel t f m w Hcap Hfuel Hwf)
      as (w' & Hrun & _ & Hrounds).
    exists w'. split; [exact Hrun|]. intros n Hn.
    destruct (Hrounds n Hn) as (wn & H1 & H2 & _ & Hs & _).
    exists wn. split; [exact H1|]. split; [exact H2 | exact (Hs Hon)]. }
  split; [|split].
  - exact (Hgen type functionName msg).
  - exact (Hgen (lit "ERROR: ") (lit "Error_Handler") (lit "Global ")).
  - intros a w'. apply Error_without_exit.
Qed.

Lemma Error_repeats_the_line_witness :
  (exists w',
      Error 4 (Z.to_nat 65535) (lit "E") (lit "f") (lit "m") (waiting_world 4)
      = OutOfFuel w' /\
      forall n : nat,
        (n <= Z.to_nat 65535)%nat ->
        exists wn,
          times n (Message_type 4 (Z.to_nat 65535) (lit "E") (lit "f") (lit "m")
                   ;; osDelay 500) (add_trace [EvBkpt] (waiting_world 4))
          = Ret tt wn /\
          times (Z.to_nat 65535 - n)
                (Message_type 4 (Z.to_nat 65535) (lit "E") (lit "f") (lit "m")
                 ;; osDelay 500) wn = Ret tt w' /\
          stream wn =
            stream (waiting_world 4) ++
            concat (repeat (firstn (Z.to_nat (strlen (lit "E") mod 65536))
                                   (lit "E")
                            ++ lit "["
                            ++ firstn (Z.to_nat (strlen (lit "f") mod 65536))
                                      (lit "f")
                            ++ lit "] "
                            ++ firstn (Z.to_nat (strlen (lit "m") mod 65536))
                                      (lit "m")
                            ++ newline) n)) /\
  (exists w',
      Error_Handler 4 (Z.to_nat 65535) (waiting_world 4) = OutOfFuel w' /\
      forall n : nat,
        (n <= Z.to_nat 65535)%nat ->
        exists wn,
          times n (Message_type 4 (Z.to_nat 65535) (lit "ERROR: ")
                                (lit "Error_Handler") (lit "Global ")
                   ;; osDelay 500) (add_trace [EvBkpt] (waiting_world 4))
          = Ret tt wn /\
          times (Z.to_nat 65535 - n)
                (Message_type 4 (Z.to_nat 65535) (lit "ERROR: ")
                              (lit "Error_Handler") (lit "Global ")
                 ;; osDelay 500) wn = Ret tt w' /\
          stream wn =
            stream (waiting_world 4) ++
            concat (repeat (lit "ERROR: [Error_Handler] Global " ++ newline) n)) /\
  (forall (a : unit) (w' : World),
      Error_Handler 4 (Z.to_nat 65535) (waiting_world 4) <> Ret a w').
Proof.
  apply (Error_repeats_the_line 4 (Z.to_nat 65535)).
  - lia.
  - lia.
  - split; [discriminate | reflexivity].
  - split; [reflexivity | simpl; lia].
Defined.

(** Three rounds of [Error_Handler] after "ab", with a buffer of 40 bytes. *)
Example Error_Handler_three_rounds :
  exists w',
    Error_Handler 40 3 (waiting_world 40) = OutOfFuel w' /\
    stream w' = lit "ab" ++ concat (repeat (lit "ERROR: [Error_Handler] Global "
                                            ++ newline) 3).
Proof. eexists. split; [vm_compute; reflexivity|]. reflexivity. Qed.

(** ** Binding, again *)

Lemma AssignDebugCOM_success
      (capacity : Z) (ERROR : list ascii -> M unit) (com sem task : Z)
      (w : World) :
  com <> 0 -> sem <> 0 ->
  Z.of_nat (length (messageBuffer_ (debugHandle w))) = capacity ->
  AssignDebugCOM capacity ERROR com sem task w =
  Ret tt (mkWorld (handleCreated w)
                  (mkDebug com sem task (debugPulsePin_ (debugHandle w))
                           (repeat zero (Z.to_nat capacity)) 0)
                  (Connected w)
                  (trace w ++ [EvSemaphoreCreate sem; EvQueueRegister sem;
                               EvGive sem; EvTaskCreate])).
Proof.
  intros Hcom Hsem Hlen.
  unfold AssignDebugCOM. run.
  apply Z.eqb_neq in Hcom. rewrite Hcom. run.
  unfold memset0.
  replace (capacity <? 0) with false by (symmetry; apply Z.ltb_ge; lia).
  replace (Z.of_nat (length (messageBuffer_ (debugHandle w))) <? capacity)
    with false by (symmetry; apply Z.ltb_ge; lia).
  run. rewrite skipn_all2 by lia. rewrite app_nil_r.
  apply Z.eqb_neq in Hsem. rewrite Hsem. run.
  cbn. rewrite <- !app_assoc. reflexivity.
Qed.

(** X15: a binding that succeeds does not hand over what waits in the buffer:
    these bytes are dropped. The state is well-formed afterwards, whatever
    [currentBufferLocation_] was before, and a text that fits the buffer,
    sent next on a connected channel, is alone in the buffer, from its first
    byte on. *)
Theorem AssignDebugCOM_starts_afresh
        (capacity : Z) (fuel : nat) (ERROR : list ascii -> M unit)
        (com sem task : Z) (text : list ascii) (w : World) :
  com <> 0 -> sem <> 0 ->
  Z.of_nat (length (messageBuffer_ (debugHandle w))) = capacity ->
  Connected w com = true ->
  strlen text <= capacity -> strlen text < 65536 ->
  (exists w1,
      AssignDebugCOM capacity ERROR com sem task w = Ret tt w1 /\
      wf capacity w1 /\ online w1 /\
      buffered w1 = [] /\
      transmits (trace w1) = transmits (trace w)) /\
  (exists w2,
      (AssignDebugCOM capacity ERROR com sem task ;; Message capacity fuel text) w
      = Ret tt w2 /\
      buffered w2 = text /\
      transmits (trace w2) = transmits (trace w)).
Proof.
  intros Hcom Hsem Hlen Hco Hfits H16.
  pose proof (AssignDebugCOM_success capacity ERROR com sem task w Hcom Hsem Hlen)
    as Hrun.
  match type of Hrun with _ = Ret tt ?W => remember W as w1 eqn:Ew end.
  assert (Hwf1 : wf capacity w1).
  { subst w1. unfold wf. cbn. rewrite repeat_length. lia. }
  assert (Hon1 : online w1) by (subst w1; split; [exact Hcom | exact Hco]).
  assert (Hb1 : buffered w1 = []) by (subst w1; reflexivity).
  assert (Htx1 : transmits (trace w1) = transmits (trace w)).
  { subst w1. cbn [trace]. rewrite transmits_app. cbn. apply app_nil_r. }
  split.
  - exists w1.
    split; [exact Hrun | split; [exact Hwf1 | split; [exact Hon1 | split; assumption]]].
  - destruct (Message_fits_buffered capacity fuel text w1 Hon1 Hwf1 H16)
      as (w2 & Hrun2 & _ & _ & Hb2 & _ & Htx2).
    { subst w1. cbn. lia. }
    exists w2. unfold bind. rewrite Hrun.
    split; [exact Hrun2|]. rewrite Hb2, Hb1, Htx2, Htx1. split; reflexivity.
Qed.

Lemma AssignDebugCOM_starts_afresh_witness :
  (exists w1,
      AssignDebugCOM 4 ERROR_diagnostic 1 2 3 (unbound_world 4) = Ret tt w1 /\
      wf 4 w1 /\ online w1 /\
      buffered w1 = [] /\
      transmits (trace w1) = transmits (trace (unbound_world 4))) /\
  (exists w2,
      (AssignDebugCOM 4 ERROR_diagnostic 1 2 3 ;; Message 4 1 (lit "ab"))
        (unbound_world 4) = Ret tt w2 /\
      buffered w2 = lit "ab" /\
      transmits (trace w2) = transmits (trace (unbound_world 4))).
Proof.
  apply (AssignDebugCOM_starts_afresh 4 1 ERROR_diagnostic 1 2 3 (lit "ab")
                                      (unbound_world 4)).
  - discriminate.
  - discriminate.
  - reflexivity.
  - reflexivity.
  - vm_compute. discriminate.
  - reflexivity.
Defined.

(** ** The pin *)

(** X16: of two calls of [SetDebugPin] the first one that passes a pin wins: a
    pin that is set stays, and a null pin sets nothing. Nothing else
    changes. *)
Theorem SetDebugPin_first_pin_wins (p q : Z) (w : World) :
  exists w',
    (SetDebugPin p ;; SetDebugPin q) w = Ret tt w' /\
    debugPulsePin_ (debugHandle w') =
      (if debugPulsePin_ (debugHandle w) =? 0
       then if p =? 0 then q else p
       else debugPulsePin_ (debugHandle w)) /\
    w' = set_debugHandle
           (set_debugPulsePin (debugPulsePin_ (debugHandle w')) (debugHandle w))
           w.
Proof.
  unfold SetDebugPin. run.
  destruct (debugPulsePin_ (debugHandle w) =? 0) eqn:H0; run.
  - destruct (p =? 0) eqn:Hp; run.
    + eexists. split; [reflexivity|]. cbn. split; reflexivity.
    + eexists. split; [reflexivity|]. cbn. split; reflexivity.
  - rewrite H0. run. exists w. split; [reflexivity|]. split; [reflexivity|].
    destruct w as [hc d c t]. destruct d. reflexivity.
Qed.

(** X17: with a pin set, [Pulse] raises it, waits 50 ticks and lowers it, and
    [Toggle] toggles it; with no pin they do nothing. Neither touches the
    buffer or the transport. This holds right after [SetDebugPin] as well. *)
Theorem Pulse_and_Toggle_mark (w : World) :
  let pin := debugPulsePin_ (debugHandle w) in
  Pulse w =
    Ret tt (add_trace (if pin =? 0 then []
                       else [EvPinHigh pin; EvDelay 50; EvPinLow pin]) w) /\
  Debug_Pulse w = Pulse w /\
  Toggle w =
    Ret tt (add_trace (if pin =? 0 then [] else [EvPinToggle pin]) w) /\
  (forall p, pin = 0 -> p <> 0 ->
     exists w',
       (SetDebugPin p ;; Pulse ;; Toggle) w = Ret tt w' /\
       pin_events (trace w') =
         pin_events (trace w)
         ++ [EvPinHigh p; EvDelay 50; EvPinLow p; EvPinToggle p] /\
       transmits (trace w') = transmits (trace w) /\
       buffered w' = buffered w).
Proof.
  intros pin. subst pin. split; [|split; [reflexivity|split]].
  - unfold Pulse. run.
    destruct (debugPulsePin_ (debugHandle w) =? 0); run.
    + destruct w; cbn. rewrite app_nil_r. reflexivity.
    + rewrite <- !app_assoc. reflexivity.
  - unfold Toggle. run.
    destruct (debugPulsePin_ (debugHandle w) =? 0); run.
    + destruct w; cbn. rewrite app_nil_r. reflexivity.
    + reflexivity.
  - intros p H0 Hp. unfold SetDebugPin, Pulse, Toggle. run.
    rewrite H0. cbn [Z.eqb negb]. run.
    apply Z.eqb_neq in Hp. rewrite Hp. run. rewrite Hp. run.
    eexists. split; [reflexivity|]. cbn [trace].
    assert (Hpe : forall t1 t2, pin_events (t1 ++ t2)
                                = pin_events t1 ++ pin_events t2).
    { intros t1 t2. induction t1 as [|e t1 IH]; cbn [pin_events app];
        [reflexivity|]. destruct e; rewrite ?IH; reflexivity. }
    repeat split.
    + rewrite !Hpe. cbn [pin_events]. rewrite <- !app_assoc. reflexivity.
    + rewrite !transmits_app. cbn [transmits]. rewrite !app_nil_r. reflexivity.
Qed.

Lemma Pulse_and_Toggle_mark_witness :
  exists w',
    (SetDebugPin 7 ;; Pulse ;; Toggle) (unbound_world 4) = Ret tt w' /\
    pin_events (trace w') =
      pin_events (trace (unbound_world 4))
      ++ [EvPinHigh 7; EvDelay 50; EvPinLow 7; EvPinToggle 7] /\
    transmits (trace w') = transmits (trace (unbound_world 4)) /\
    buffered w' = buffered (unbound_world 4).
Proof.
  destruct (Pulse_and_Toggle_mark (unbound_world 4)) as (_ & _ & _ & Hset).
  apply Hset.
  - reflexivity.
  - discriminate.
Defined.

Lemma Message_long_text_transmit_count_witness :
  exists w' cs,
    Message 4 10 (lit "HELLOWORLD") (waiting_world 4) = Ret tt w' /\
    transmits (trace w') =
      transmits (trace (waiting_world 4)) ++ buffered (waiting_world 4) :: cs /\
    concat cs = lit "HELLOWORLD" /\
    Z.of_nat (length cs) = (strlen (lit "HELLOWORLD") + 4 - 1) / 4 /\
    Z.of_nat (length (transmits (trace w'))) =
      Z.of_nat (length (transmits (trace (waiting_world 4))))
      + 1 + (strlen (lit "HELLOWORLD") + 4 - 1) / 4 /\
    buffered w' = [].
Proof.
  apply (Message_long_text_transmit_count 4 10 (lit "HELLOWORLD")
                                          (waiting_world 4)).
  - lia.
  - split; [discriminate | reflexivity].
  - split; [reflexivity | simpl; lia].
  - reflexivity.
  - reflexivity.
  - vm_compute. discriminate.
Defined.
